(** * CppLlmCLI: the Python automation scripts, embedded and verified

    The repository holds four scripts: [build.py], [repl_runner.py],
    [validate.py] and [llm-repl.py].  Each of them parses flags, starts
    subprocesses, branches on their exit codes and prints status lines.

    The embedding is shallow.  A script function becomes a computation in a
    small state-and-exception monad [M]; the state is the [world] (file
    system, clock position, and the trace of observable events), and whatever
    the script asks of its surroundings (how a subprocess ends, what time it
    is, how a float prints) is answered by an environment record [env]. *)

From Stdlib Require Import String Ascii List ZArith Bool Lia.
From Stdlib Require Import DecimalString.
From Stdlib Require Import Floats.SpecFloat.
Import ListNotations.

Local Open Scope string_scope.
Local Open Scope Z_scope.

(** ** Python values used by the scripts *)

(** Python floats are IEEE 754 binary64 values. *)
Definition float : Type := spec_float.
Definition fsub (a b : float) : float := SFsub 53 1024 a b.
Definition fzero : float := S754_zero false.

(** [str(n)] for a Python [int]. *)
Definition str_int (n : Z) : string := NilZero.string_of_int (Z.to_int n).

(** [sep.join(parts)]. *)
Definition join (sep : string) (parts : list string) : string :=
  String.concat sep parts.

(** [x in xs] for a list of strings. *)
Fixpoint mem (x : string) (xs : list string) : bool :=
  match xs with
  | [] => false
  | y :: ys => if String.eqb y x then true else mem x ys
  end.

(** [s * n] *)
Fixpoint repeat_str (s : string) (n : nat) : string :=
  match n with
  | O => ""
  | S n' => s ++ repeat_str s n'
  end.

(** The newline character. *)
Definition nl : string := String (ascii_of_nat 10) "".

(** [s.lower()] on ASCII letters; every other byte is kept.  A string is
    held as its bytes, so [lower] is [str.lower()] on the strings of ASCII
    characters ([is_ascii]); on a string with other characters, of which
    Python lowers the cased ones, it is not. *)
Definition lower_ascii (c : ascii) : ascii :=
  let n := nat_of_ascii c in
  if (65 <=? n)%nat && (n <=? 90)%nat then ascii_of_nat (n + 32) else c.

Fixpoint lower (s : string) : string :=
  match s with
  | EmptyString => EmptyString
  | String c s' => String (lower_ascii c) (lower s')
  end.

Fixpoint is_ascii (s : string) : bool :=
  match s with
  | EmptyString => true
  | String c s' => (nat_of_ascii c <? 128)%nat && is_ascii s'
  end.

(** [sub in s] for strings: [sub] starts at some position of [s]. *)
Fixpoint contains (sub s : string) : bool :=
  if String.prefix sub s then true
  else match s with
       | EmptyString => false
       | String _ s' => contains sub s'
       end.

(** [f"{s:<width}"]: pad with spaces on the right up to [width]. *)
Definition ljust (s : string) (width : nat) : string :=
  s ++ repeat_str " " (width - String.length s).

(** [xs.index(x)]; [None] is [ValueError]. *)
Fixpoint index_of (x : string) (xs : list string) : option nat :=
  match xs with
  | [] => None
  | y :: ys =>
      if String.eqb y x then Some O
      else match index_of x ys with
           | Some i => Some (S i)
           | None => None
           end
  end.

(** ** The world outside the script *)

(** A path of the file system names nothing, a regular file, or a directory
    (which carries its contents). *)
Inductive node : Type :=
| Absent
| File
| Dir (entries : list string).

Definition file_system : Type := string -> node.

(** [Path.exists()] *)
Definition node_exists (n : node) : bool :=
  match n with Absent => false | _ => true end.

Definition is_dir (n : node) : bool :=
  match n with Dir _ => true | _ => false end.

Definition fs_set (p : string) (n : node) (fs : file_system) : file_system :=
  fun q => if String.eqb q p then n else fs q.

(** How one call of [subprocess.run] ends. *)
Inductive outcome : Type :=
| Exited (returncode : Z) (stdout stderr : string)
    (* the process ran and ended; the captured text is empty when the
       caller did not capture it *)
| Failed (msg : string)
    (* [subprocess.run] raised an [Exception] on its own, such as the
       [OSError] of a program that cannot be started *)
| Interrupted.
    (* [KeyboardInterrupt] arrived while waiting for the process *)

(** The exceptions that travel through the scripts. *)
Inductive exn : Type :=
| CalledProcessError (cmd : list string) (returncode : Z) (stdout stderr : string)
| Exception (msg : string)
| KeyboardInterrupt.

(** [except Exception] catches everything but [KeyboardInterrupt]. *)
Definition is_Exception (e : exn) : bool :=
  match e with KeyboardInterrupt => false | _ => true end.

Inductive result (A : Type) : Type :=
| Ok (a : A)
| Raise (e : exn).
Arguments Ok {A} a.
Arguments Raise {A} e.

(** [BuildConfig] of llm-repl.py *)
Record BuildConfig : Type := mkBuildConfig {
  build_type : string;
  compiler : string;
  generator : string;
  jobs : Z;
  verbose : bool
}.

(** The command objects llm-repl.py can execute, with what [execute] is
    given. *)
Inductive invocation : Type :=
| StatusCommand
| CleanCommand
| BuildCommand (config : BuildConfig)
| RunCommand (app_args : list string)
| TestCommand
| FormatCommand.

(** [subprocess.CompletedProcess] *)
Record CompletedProcess : Type := mkCompleted {
  returncode : Z;
  stdout : string;
  stderr : string
}.

(** What an observer of a run can see, in the order it happens. *)
Inductive event : Type :=
| Out (text : string)
    (* one call of [print] *)
| Spawn (cmd : list string) (cwd : option (string * node)) (res : outcome)
    (* one call of [subprocess.run]: the command line, the working
       directory handed over together with its state at that moment, and
       how the call ended *)
| Rmtree (path : string)
    (* [shutil.rmtree] removed a directory *)
| Mkdir (path : string)
    (* [Path.mkdir] created a directory *)
| Execute (inv : invocation)
    (* llm-repl.py ran [execute] of one of its command objects *)
| Stderr (text : string).
    (* text written to [sys.stderr], as [traceback.print_exc()] does; it is
       no call of [print] *)

(** Everything the scripts take from their surroundings.  Within one run a
    script starts each command line at most once, so the ending of a
    subprocess is given per command line. *)
Record env : Type := mkEnv {
  spawn : list string -> outcome;
  clock : nat -> float;             (* the n-th reading of [time.time()] *)
  project_root : string;            (* [Path(__file__).parent] *)
  str_float : float -> string;      (* [str(x)] for a float *)
  fmt_1f : float -> string;         (* [f"{x:.1f}"] *)
  str_exn : exn -> string;          (* [str(e)] *)
  format_exc : exn -> string;       (* the text of [traceback.print_exc()] *)
  int_of_str : string -> option Z;  (* [int(s)]; [None] is [ValueError] *)
  execute : invocation -> result bool
    (* what [execute] of a command object of llm-repl.py returns or raises *)
}.

Record world : Type := mkWorld {
  fs : file_system;
  ticks : nat;
  trace : list event
}.

Definition initial_world (fs0 : file_system) : world :=
  {| fs := fs0; ticks := 0%nat; trace := [] |}.

(** [Path / name] *)
Definition path_join (p name : string) : string := p ++ "/" ++ name.

(** ** The monad of script computations *)

Definition M (A : Type) : Type := world -> result A * world.

Definition ret {A} (a : A) : M A := fun w => (Ok a, w).

Definition bind {A B} (c : M A) (k : A -> M B) : M B :=
  fun w =>
    match c w with
    | (Ok a, w') => k a w'
    | (Raise e, w') => (Raise e, w')
    end.

Definition raise {A} (e : exn) : M A := fun w => (Raise e, w).

(** [try: c  except <handles>: handler e] *)
Definition try_except {A} (c : M A) (handles : exn -> bool) (handler : exn -> M A) : M A :=
  fun w =>
    match c w with
    | (Ok a, w') => (Ok a, w')
    | (Raise e, w') => if handles e then handler e w' else (Raise e, w')
    end.

Declare Scope script_scope.
Delimit Scope script_scope with script.
Notation "x <- c ;; k" := (bind c (fun x => k))
  (at level 61, c at next level, right associativity) : script_scope.
Notation "c ;; k" := (bind c (fun _ => k))
  (at level 61, right associativity) : script_scope.
Local Open Scope script_scope.

Definition emit (ev : event) : M unit :=
  fun w => (Ok tt, {| fs := fs w; ticks := ticks w; trace := trace w ++ [ev] |}).

(** [print(text)] *)
Definition print (text : string) : M unit := emit (Out text).

(** [time.time()] *)
Definition time_time (e : env) : M float :=
  fun w => (Ok (clock e (ticks w)),
            {| fs := fs w; ticks := S (ticks w); trace := trace w |}).

(** [path.exists()] *)
Definition path_exists (p : string) : M bool :=
  fun w => (Ok (node_exists (fs w p)), w).

(** [shutil.rmtree(path)]: removes a directory with its contents and raises
    on anything else. *)
Definition rmtree (p : string) : M unit :=
  fun w =>
    match fs w p with
    | Dir _ =>
        (Ok tt, {| fs := fs_set p Absent (fs w); ticks := ticks w;
                   trace := trace w ++ [Rmtree p] |})
    | File => (Raise (Exception "NotADirectoryError"), w)
    | Absent => (Raise (Exception "FileNotFoundError"), w)
    end.

(** [path.mkdir(exist_ok=True)]: an existing directory is left as it is; a
    regular file in the way still raises. *)
Definition mkdir_exist_ok (p : string) : M unit :=
  fun w =>
    match fs w p with
    | Absent =>
        (Ok tt, {| fs := fs_set p (Dir []) (fs w); ticks := ticks w;
                   trace := trace w ++ [Mkdir p] |})
    | Dir _ => (Ok tt, w)
    | File => (Raise (Exception "FileExistsError"), w)
    end.

(** [subprocess.run(cmd, cwd=cwd, capture_output=capture, check=check)];
    what is not captured is [None] in Python and empty here.  What the
    process does to the file system is not tracked here: a function that
    reads the file system after it started a subprocess says so with
    [settle], below. *)
Definition subprocess_run (e : env) (cmd : list string) (cwd : option string)
    (capture check : bool) : M CompletedProcess :=
  fun w =>
    let res := spawn e cmd in
    let here := match cwd with Some p => Some (p, fs w p) | None => None end in
    let w' := {| fs := fs w; ticks := ticks w;
                 trace := trace w ++ [Spawn cmd here res] |} in
    match res with
    | Exited rc out err =>
        let out' := if capture then out else "" in
        let err' := if capture then err else "" in
        if check && negb (rc =? 0)
        then (Raise (CalledProcessError cmd rc out' err'), w')
        else (Ok (mkCompleted rc out' err'), w')
    | Failed msg => (Raise (Exception msg), w')
    | Interrupted => (Raise KeyboardInterrupt, w')
    end.

(** The subprocess calls of a trace: command line and ending. *)
Fixpoint spawns (t : list event) : list (list string * outcome) :=
  match t with
  | [] => []
  | Spawn cmd _ res :: t' => (cmd, res) :: spawns t'
  | _ :: t' => spawns t'
  end.

(** A subprocess succeeded when it ran and exited with code 0. *)
Definition succeeded (res : outcome) : bool :=
  match res with
  | Exited rc _ _ => rc =? 0
  | _ => false
  end.

(** A subprocess exited when it ran to an exit code, whatever the code. *)
Definition exited (res : outcome) : bool :=
  match res with
  | Exited _ _ _ => true
  | _ => false
  end.

(** What a trace printed, call by call. *)
Fixpoint printed (t : list event) : list string :=
  match t with
  | [] => []
  | Out text :: t' => text :: printed t'
  | _ :: t' => printed t'
  end.

(** The state of the working directory at the first subprocess call. *)
Fixpoint first_cwd (t : list event) : option (string * node) :=
  match t with
  | [] => None
  | Spawn _ cwd _ :: _ => cwd
  | _ :: t' => first_cwd t'
  end.

(** The directories a trace removed. *)
Fixpoint removed (t : list event) : list string :=
  match t with
  | [] => []
  | Rmtree p :: t' => p :: removed t'
  | _ :: t' => removed t'
  end.

(** What a trace wrote to the standard error stream. *)
Fixpoint written_to_stderr (t : list event) : list string :=
  match t with
  | [] => []
  | Stderr text :: t' => text :: written_to_stderr t'
  | _ :: t' => written_to_stderr t'
  end.

(** The directories a trace created. *)
Fixpoint created (t : list event) : list string :=
  match t with
  | [] => []
  | Mkdir p :: t' => p :: created t'
  | _ :: t' => created t'
  end.

(** The working directory each subprocess call of a trace was given. *)
Fixpoint cwds (t : list event) : list (option string) :=
  match t with
  | [] => []
  | Spawn _ cwd _ :: t' => option_map fst cwd :: cwds t'
  | _ :: t' => cwds t'
  end.

(** *** Files written and removed, and what subprocesses leave behind *)

(** [open(path, 'w')] followed by [f.write(...)]: the file is created or
    truncated, and a directory in the way raises.  What a file holds is not
    tracked, and neither are permissions. *)
Definition write_file (p : string) : M unit :=
  fun w =>
    match fs w p with
    | Dir _ => (Raise (Exception "IsADirectoryError"), w)
    | _ => (Ok tt, {| fs := fs_set p File (fs w); ticks := ticks w; trace := trace w |})
    end.

(** [path.unlink()] *)
Definition unlink (p : string) : M unit :=
  fun w =>
    match fs w p with
    | File =>
        (Ok tt, {| fs := fs_set p Absent (fs w); ticks := ticks w; trace := trace w |})
    | Dir _ => (Raise (Exception "IsADirectoryError"), w)
    | Absent => (Raise (Exception "FileNotFoundError"), w)
    end.

(** What a subprocess does to the file system while the script waits for
    it: [after cmd fs] is what the process started by [cmd] leaves of
    [fs]. *)
Definition effects : Type := list string -> file_system -> file_system.

(** The subprocesses leave every file as it is. *)
Definition no_effects : effects := fun _ fs' => fs'.

(** No subprocess touches any of [paths]. *)
Definition leaves_alone (after : effects) (paths : list string) : Prop :=
  forall cmd fs' p, In p paths -> after cmd fs' p = fs' p.

(** [c], and then the file system as the subprocesses that [c] started
    left it; a process that could not be started leaves nothing.  It is put
    around the computations that start a subprocess and are followed by a
    look at the file system. *)
Definition settle {A} (after : effects) (c : M A) : M A :=
  fun w =>
    let (r, w') := c w in
    let started := skipn (List.length (spawns (trace w))) (spawns (trace w')) in
    (r, {| fs := fold_left
                   (fun fs' (call : list string * outcome) =>
                      match snd call with
                      | Failed _ => fs'
                      | _ => after (fst call) fs'
                      end)
                   started (fs w');
           ticks := ticks w';
           trace := trace w' |}).

(** ** build.py *)

Module Build.

(** The namespace [argparse] returns. *)
Record Args : Type := mkArgs {
  clean : bool;
  debug : bool;
  jobs : option Z
}.

Definition build_dir (e : env) : string := path_join (project_root e) "build".

Definition run_command (e : env) (cmd : list string) (cwd : string) : M bool :=
  print ("Running: " ++ join " " cmd) ;;
  result <- subprocess_run e cmd (Some cwd) false false ;;
  ret (returncode result =? 0).

Definition cmake_cmd (e : env) (args : Args) : list string :=
  let build_type := if debug args then "Debug" else "Release" in
  ["cmake"; "-DCMAKE_BUILD_TYPE=" ++ build_type; project_root e].

Definition build_cmd (args : Args) : list string :=
  (["cmake"; "--build"; "."] ++
   (* [if args.jobs:] is false for [None] and for [0] *)
   match jobs args with
   | Some n => if n =? 0 then [] else ["--parallel"; str_int n]
   | None => []
   end)%list.

Definition main (e : env) (args : Args) : M Z :=
  (* Clean if requested *)
  (if clean args then
     present <- path_exists (build_dir e) ;;
     if present then
       print "Cleaning build directory..." ;;
       rmtree (build_dir e)
     else ret tt
   else ret tt) ;;
  (* Create build directory *)
  mkdir_exist_ok (build_dir e) ;;
  (* Configure with CMake *)
  configured <- run_command e (cmake_cmd e args) (build_dir e) ;;
  if negb configured then
    print "CMake configuration failed!" ;;
    ret 1
  else
    (* Build *)
    built <- run_command e (build_cmd args) (build_dir e) ;;
    if negb built then
      print "Build failed!" ;;
      ret 1
    else
      print ("Build successful! Executable: " ++ build_dir e ++ "/llm-repl") ;;
      ret 0.

(** One run of the script from a given file system. *)
Definition run (e : env) (args : Args) (fs0 : file_system) : result Z * world :=
  main e args (initial_world fs0).

End Build.

(** ** repl_runner.py *)

Module ReplRunner.

(** [choices=["groq", "together", "ollama"]] *)
Inductive provider_choice : Type :=
| groq
| together
| ollama.

Definition provider_name (p : provider_choice) : string :=
  match p with
  | groq => "groq"
  | together => "together"
  | ollama => "ollama"
  end.

(** The namespace [argparse] returns; an option the user left out is
    [None]. *)
Record Args : Type := mkArgs {
  api_key : option string;
  provider : option provider_choice;
  model : option string;
  config : option string;
  temperature : option float;
  max_tokens : option Z;
  verbose : bool;
  help_repl : bool
}.

(** What [main] hands to [sys.exit]: a [bool] on the [--help-repl] path, an
    [int] otherwise. *)
Inductive pyval : Type :=
| PyBool (b : bool)
| PyInt (n : Z).

Definition executable (e : env) : string :=
  path_join (path_join (project_root e) "build") "llm-repl.exe".

Definition check_executable (e : env) : M bool :=
  present <- path_exists (executable e) ;;
  if negb present then
    print ("[ERROR] Executable not found: " ++ executable e) ;;
    print "[INFO] Run 'python llm-repl.py build' to build the application first" ;;
    ret false
  else ret true.

(** [if args:] is false for [None] and for the empty list. *)
Definition given (args : option (list string)) : list string :=
  match args with
  | Some l => l
  | None => []
  end.

Definition run_repl (e : env) (args : option (list string)) : M bool :=
  ready <- check_executable e ;;
  if negb ready then ret false
  else
    let cmd := ([executable e] ++ given args)%list in
    print "[STARTING] LLM REPL..." ;;
    print ("[EXEC] Executable: " ++ executable e) ;;
    (match given args with
     | [] => ret tt
     | _ :: _ => print ("[ARGS] Arguments: " ++ join " " (given args))
     end) ;;
    print (repeat_str "-" 60) ;;
    try_except
      (process <- subprocess_run e cmd (Some (project_root e)) false false ;;
       ret (returncode process =? 0))
      (fun _ => true)
      (fun ex =>
         match ex with
         | KeyboardInterrupt =>
             print (nl ++ "[STOP] REPL interrupted by user") ;;
             ret true
         | _ =>
             print ("[ERROR] Error running REPL: " ++ str_exn e ex) ;;
             ret false
         end).

(** [if value:] on an optional string: false for [None] and for [""]. *)
Definition flag_str (name : string) (value : option string) : list string :=
  match value with
  | Some v => if String.eqb v "" then [] else [name; v]
  | None => []
  end.

(** The block of [main] that builds [repl_args] (lines 92 to 107). *)
Definition repl_args (e : env) (args : Args) : list string :=
  (flag_str "--config" (config args) ++
  flag_str "--provider" (option_map provider_name (provider args)) ++
  flag_str "--model" (model args) ++
  flag_str "--api-key" (api_key args) ++
  (match temperature args with
   | Some t => ["--temperature"; str_float e t]
   | None => []
   end) ++
  (match max_tokens args with
   | Some n => if n =? 0 then [] else ["--max-tokens"; str_int n]
   | None => []
   end) ++
  (if verbose args then ["--verbose"] else []))%list.

(** [main] after [parser.parse_args()], on the namespace it returned.  A
    command line that [argparse] rejects ends the process there, with exit
    code 2, and is no run of what follows. *)
Definition main (e : env) (args : Args) : M pyval :=
  (* Show REPL help if requested *)
  if help_repl args then
    shown <- run_repl e (Some ["--help"]) ;;
    ret (PyBool shown)
  else
    (* Run the REPL *)
    success <- run_repl e (match repl_args e args with
                           | [] => None
                           | l => Some l
                           end) ;;
    if negb success then
      print (nl ++ "[ERROR] REPL execution failed") ;;
      ret (PyInt 1)
    else ret (PyInt 0).

(** [sys.exit(v)]: [True] and [False] are the integers 1 and 0; [main]
    returns no integer but 0 and 1, which every platform reports as given. *)
Definition exit_status (v : pyval) : Z :=
  match v with
  | PyBool true => 1
  | PyBool false => 0
  | PyInt n => n
  end.

(** The [__main__] block: the exit code of the script's process. *)
Definition script (e : env) (args : Args) (fs0 : file_system) : Z * world :=
  match main e args (initial_world fs0) with
  | (Ok v, w) => (exit_status v, w)
  | (Raise KeyboardInterrupt, w) =>
      (1, snd (print (nl ++ "[STOP] Script interrupted by user") w))
  | (Raise ex, w) =>
      (1, snd (print (nl ++ "[ERROR] Script error: " ++ str_exn e ex) w))
  end.

(** [args] with another [--max-tokens], and with another [--temperature]. *)
Definition set_max_tokens (v : option Z) (args : Args) : Args :=
  mkArgs (api_key args) (provider args) (model args) (config args)
    (temperature args) v (verbose args) (help_repl args).

Definition set_temperature (v : option float) (args : Args) : Args :=
  mkArgs (api_key args) (provider args) (model args) (config args)
    v (max_tokens args) (verbose args) (help_repl args).

(** *** The forwarding rule in the words of the specification

    Every recognized flag the user supplies appears with its value, in the
    order [--config], [--provider], [--model], [--api-key],
    [--temperature], [--max-tokens], [--verbose], and nothing else is
    added.  This definition follows the specification, not the script; the
    theorems compare it with [repl_args]. *)
Definition supplied (name : string) (value : option string) : list string :=
  match value with
  | Some v => [name; v]
  | None => []
  end.

Definition spec_forwarded_flags (e : env) (args : Args) : list string :=
  (supplied "--config" (config args) ++
   supplied "--provider" (option_map provider_name (provider args)) ++
   supplied "--model" (model args) ++
   supplied "--api-key" (api_key args) ++
   supplied "--temperature" (option_map (str_float e) (temperature args)) ++
   supplied "--max-tokens" (option_map str_int (max_tokens args)) ++
   (if verbose args then ["--verbose"] else []))%list.

(** *** The forwarding rule as amended

    A flag given the empty string and a [--max-tokens] of 0 count as not
    supplied; every other flag the user supplies appears with its value, in
    the same order, and nothing else is added.  This definition follows
    the amended claim, not the script. *)
Definition nonempty (value : option string) : option string :=
  match value with
  | Some v => if String.eqb v "" then None else Some v
  | None => None
  end.

Definition nonzero (value : option Z) : option Z :=
  match value with
  | Some n => if n =? 0 then None else Some n
  | None => None
  end.

Definition amended_forwarded_flags (e : env) (args : Args) : list string :=
  (supplied "--config" (nonempty (config args)) ++
   supplied "--provider" (option_map provider_name (provider args)) ++
   supplied "--model" (nonempty (model args)) ++
   supplied "--api-key" (nonempty (api_key args)) ++
   supplied "--temperature" (option_map (str_float e) (temperature args)) ++
   supplied "--max-tokens" (option_map str_int (nonzero (max_tokens args))) ++
   (if verbose args then ["--verbose"] else []))%list.

End ReplRunner.

(** ** validate.py *)

Module Validate.

Definition validation_steps : list (string * list string) :=
  [ ("Project Status Check", ["python"; "llm-repl.py"; "status"]);
    ("Clean Build Environment", ["python"; "llm-repl.py"; "clean"]);
    ("Full Release Build", ["python"; "llm-repl.py"; "build"; "--release"]);
    ("Comprehensive Testing", ["python"; "llm-repl.py"; "test"]);
    ("Code Formatting Check", ["python"; "llm-repl.py"; "format"]);
    ("Application Version Test", ["python"; "llm-repl.py"; "run"; "--"; "--version"]);
    ("Application Help Test", ["python"; "llm-repl.py"; "run"; "--"; "--help"]) ].

(** An entry of [results]: [(step_name, success, duration)]. *)
Definition step_result : Type := string * bool * float.

Definition is_CalledProcessError (ex : exn) : bool :=
  match ex with CalledProcessError _ _ _ _ => true | _ => false end.

(** The body of the [for] loop over the steps. *)
Definition run_step (e : env) (step_name : string) (command : list string)
    : M step_result :=
  print (nl ++ "[STEP] " ++ step_name) ;;
  print ("[CMD]  " ++ join " " command) ;;
  print (repeat_str "-" 60) ;;
  start_time <- time_time e ;;
  try_except
    (_ <- subprocess_run e command None false true ;;
     now <- time_time e ;;
     let duration := fsub now start_time in
     print ("[SUCCESS] " ++ step_name ++ " completed in " ++ fmt_1f e duration ++ "s") ;;
     ret (step_name, true, duration))
    is_CalledProcessError
    (fun ex =>
       now <- time_time e ;;
       let duration := fsub now start_time in
       print ("[FAILED] " ++ step_name ++ " failed after " ++ fmt_1f e duration ++ "s") ;;
       print ("[ERROR] Exit code: " ++
              match ex with
              | CalledProcessError _ rc _ _ => str_int rc
              | _ => ""
              end) ;;
       ret (step_name, false, duration)).

(** The [for] loop: [results] grows by one entry per step. *)
Fixpoint run_steps (e : env) (steps : list (string * list string))
    (results : list step_result) : M (list step_result) :=
  match steps with
  | [] => ret results
  | (step_name, command) :: rest =>
      r <- run_step e step_name command ;;
      run_steps e rest (results ++ [r])
  end.

(** One line of the summary report. *)
Definition report_line (e : env) (r : step_result) : string :=
  let '(step_name, success, duration) := r in
  let status := if success then "[PASS]" else "[FAIL]" in
  status ++ " " ++ ljust step_name 30 ++ " (" ++ fmt_1f e duration ++ "s)".

Fixpoint print_lines (lines : list string) : M unit :=
  match lines with
  | [] => ret tt
  | l :: rest => print l ;; print_lines rest
  end.

(** [sum(1 for _, success, _ in results if success)] *)
Definition count_passed (results : list step_result) : nat :=
  List.length (filter (fun r : step_result => snd (fst r)) results).

Definition banner_text : string := "
========================================================================
                     LLM REPL PROJECT VALIDATION
========================================================================
Running comprehensive validation of the C++20 LLM REPL project...
".

Definition summary_text : string := "
========================================================================
                        VALIDATION SUMMARY
========================================================================
".

Definition overall_text (e : env) (all_passed : bool) (passed total : nat)
    (total_duration : float) : string :=
  "
------------------------------------------------------------------------
OVERALL RESULT: " ++ (if all_passed then "SUCCESS" else "FAILURE") ++ "
Tests Passed: " ++ str_int (Z.of_nat passed) ++ "/" ++ str_int (Z.of_nat total) ++ "
Total Time: " ++ fmt_1f e total_duration ++ "s
------------------------------------------------------------------------

PROJECT STATUS: " ++ (if all_passed then "✅ FULLY VALIDATED" else "❌ VALIDATION FAILED") ++ "
".

Definition congratulations_text : string := "
🎉 CONGRATULATIONS! 🎉

The LLM REPL C++20 project has been successfully validated!

✅ All components built successfully
✅ All tests passed
✅ Code formatting applied
✅ Application functionality verified

The project is ready for production use!
".

Definition incomplete_text : string := "
⚠️  VALIDATION INCOMPLETE

Some validation steps failed. Please review the errors above
and fix any issues before proceeding.
".

Definition run_validation (e : env) : M Z :=
  print banner_text ;;
  total_time <- time_time e ;;
  results <- run_steps e validation_steps [] ;;
  now <- time_time e ;;
  let total_duration := fsub now total_time in
  (* Generate summary report *)
  print summary_text ;;
  let passed := count_passed results in
  let total := List.length results in
  print_lines (map (report_line e) results) ;;
  print (overall_text e (passed =? total)%nat passed total total_duration) ;;
  if (passed =? total)%nat then
    print congratulations_text ;;
    ret 0
  else
    print incomplete_text ;;
    ret 1.

(** One run of the function from a fresh world. *)
Definition run (e : env) (fs0 : file_system) : result Z * world :=
  run_validation e (initial_world fs0).

(** The [__main__] block: the exit code of the script's process.
    [sys.exit] raises [SystemExit], which neither handler catches. *)
Definition script (e : env) (fs0 : file_system) : Z * world :=
  match run_validation e (initial_world fs0) with
  | (Ok rc, w) => (rc, w)
  | (Raise KeyboardInterrupt, w) =>
      (1, snd (print (nl ++ "[INTERRUPTED] Validation cancelled by user") w))
  | (Raise ex, w) =>
      (1, snd (print (nl ++ "[ERROR] Validation script failed: " ++ str_exn e ex) w))
  end.

(** *** What the claims about validate.py speak of *)

(** The subprocess of every step runs to an exit code. *)
Definition all_exit (e : env) (steps : list (string * list string)) : bool :=
  forallb (fun s : string * list string => exited (spawn e (snd s))) steps.

(** The subprocess of every step exits with code 0. *)
Definition all_succeed (e : env) (steps : list (string * list string)) : bool :=
  forallb (fun s : string * list string => succeeded (spawn e (snd s))) steps.

(** The report line the specification expects for a step that took
    [duration]: [PASS] exactly when the subprocess of the step exited with
    0. *)
Definition spec_report_line (e : env) (step : string * list string)
    (duration : float) : string :=
  (if succeeded (spawn e (snd step)) then "[PASS]" else "[FAIL]") ++
  " " ++ ljust (fst step) 30 ++ " (" ++ fmt_1f e duration ++ "s)".

End Validate.

(** ** llm-repl.py *)

Module LlmRepl.

(** *** Colors and Logger *)

Definition esc : string := String (ascii_of_nat 27) "".

Module Colors.
Definition RED : string := esc ++ "[91m".
Definition GREEN : string := esc ++ "[92m".
Definition YELLOW : string := esc ++ "[93m".
Definition BLUE : string := esc ++ "[94m".
Definition MAGENTA : string := esc ++ "[95m".
Definition CYAN : string := esc ++ "[96m".
Definition WHITE : string := esc ++ "[97m".
Definition BOLD : string := esc ++ "[1m".
Definition END : string := esc ++ "[0m".
End Colors.

Module Logger.
Definition success (msg : string) : M unit :=
  print (Colors.GREEN ++ "[SUCCESS] " ++ msg ++ Colors.END).
Definition error (msg : string) : M unit :=
  print (Colors.RED ++ "[ERROR] " ++ msg ++ Colors.END).
Definition warning (msg : string) : M unit :=
  print (Colors.YELLOW ++ "[WARNING] " ++ msg ++ Colors.END).
Definition info (msg : string) : M unit :=
  print (Colors.CYAN ++ "[INFO] " ++ msg ++ Colors.END).
Definition header (msg : string) : M unit :=
  print (nl ++ Colors.MAGENTA ++ Colors.BOLD ++ ">>> " ++ msg ++ " <<<" ++ Colors.END).
Definition banner : M unit :=
  print (Colors.CYAN ++ "
================================================================
                           LLM REPL
              C++20 Interactive AI Chat Terminal
                    Management Script v2.0
================================================================
" ++ Colors.END).
End Logger.

(** *** TestResult and ProjectManager *)

Record TestResult : Type := mkTestResult {
  name : string;
  passed : bool;
  output : string;
  error : string;
  duration : float
}.

Definition build_dir (e : env) : string := path_join (project_root e) "build".
Definition exe_name : string := "llm-repl.exe".
Definition exe_path (e : env) : string := path_join (build_dir e) exe_name.

Definition is_CalledProcessError (ex : exn) : bool :=
  match ex with CalledProcessError _ _ _ _ => true | _ => false end.

(** [ProjectManager.run_command]; [cwd or self.project_root]. *)
Definition run_command (e : env) (cmd : list string) (cwd : option string)
    (capture_output check : bool) : M CompletedProcess :=
  try_except
    (subprocess_run e cmd
       (Some match cwd with Some d => d | None => project_root e end)
       capture_output check)
    is_CalledProcessError
    (fun ex =>
       (if capture_output then
          Logger.error ("Command failed: " ++ join " " cmd) ;;
          match ex with
          | CalledProcessError _ _ out err =>
              (if String.eqb out "" then ret tt else print ("STDOUT: " ++ out)) ;;
              (if String.eqb err "" then ret tt else print ("STDERR: " ++ err))
          | _ => ret tt
          end
        else ret tt) ;;
       raise ex).

(** *** The tests of TestCommand that the claims are about *)

Definition _test_version_check (e : env) : M TestResult :=
  start_time <- time_time e ;;
  present <- path_exists (exe_path e) ;;
  if negb present then
    ret (mkTestResult "Version Check" false "" "Executable not found" fzero)
  else
    try_except
      (result <- run_command e [exe_path e; "--version"] None true true ;;
       now <- time_time e ;;
       let duration := fsub now start_time in
       if contains "LLM REPL v" (stdout result) then
         ret (mkTestResult "Version Check" true (stdout result) "" duration)
       else
         ret (mkTestResult "Version Check" false (stdout result)
                "Version string not found" duration))
      is_Exception
      (fun ex =>
         now <- time_time e ;;
         ret (mkTestResult "Version Check" false "" (str_exn e ex)
                (fsub now start_time))).

Definition _test_help_output (e : env) : M TestResult :=
  start_time <- time_time e ;;
  present <- path_exists (exe_path e) ;;
  if negb present then
    ret (mkTestResult "Help Output" false "" "Executable not found" fzero)
  else
    try_except
      (result <- run_command e [exe_path e; "--help"] None true true ;;
       now <- time_time e ;;
       let duration := fsub now start_time in
       if contains "Interactive AI Chat Terminal" (stdout result) then
         ret (mkTestResult "Help Output" true (stdout result) "" duration)
       else
         ret (mkTestResult "Help Output" false (stdout result)
                "Help text not found" duration))
      is_Exception
      (fun ex =>
         now <- time_time e ;;
         ret (mkTestResult "Help Output" false "" (str_exn e ex)
                (fsub now start_time))).

Definition _test_invalid_args (e : env) : M TestResult :=
  start_time <- time_time e ;;
  present <- path_exists (exe_path e) ;;
  if negb present then
    ret (mkTestResult "Invalid Arguments" false "" "Executable not found" fzero)
  else
    try_except
      (result <- run_command e [exe_path e; "--invalid-flag"] None true false ;;
       now <- time_time e ;;
       let duration := fsub now start_time in
       (* Either it handles gracefully or shows error *)
       ret (mkTestResult "Invalid Arguments" true (stdout result) "" duration))
      is_Exception
      (fun ex =>
         now <- time_time e ;;
         (* Even exceptions are acceptable for invalid args *)
         ret (mkTestResult "Invalid Arguments" true "" (str_exn e ex)
                (fsub now start_time))).

(** A test passes when it returns a [TestResult] whose [passed] is true. *)
Definition passes (r : result TestResult * world) : bool :=
  match fst r with
  | Ok t => passed t
  | Raise _ => false
  end.

(** *** main *)

Definition usage_text : string := "
USAGE:
    python llm-repl.py <command> [options] [-- app-args]

COMMANDS:
    status      Show application and build status
    clean       Clean build artifacts and temporary files
    build       Build the application (default: Release mode)
    run         Run the application with optional arguments
    test        Run test suite and validation checks
    format      Format source code with clang-format
    help        Show this help message

OPTIONS:
    --debug         Build in Debug mode
    --release       Build in Release mode (default)
    --verbose       Show verbose output during build
    --jobs N        Number of parallel build jobs (default: 4)

EXAMPLES:
    python llm-repl.py status                      # Check application status
    python llm-repl.py clean                       # Clean build artifacts
    python llm-repl.py build --debug --verbose     # Debug build with verbose output
    python llm-repl.py run                         # Run with --help (default)
    python llm-repl.py run -- --version            # Run with --version flag
    python llm-repl.py run -- -p groq -k key123    # Run with provider and API key
    python llm-repl.py test                        # Run test suite

WORKFLOW:
    1. python llm-repl.py status                   # Check dependencies
    2. python llm-repl.py clean                    # Clean if needed
    3. python llm-repl.py build                    # Build application
    4. python llm-repl.py test                     # Validate build
    5. python llm-repl.py run -- [args]            # Run application
".

Definition show_help : M unit :=
  Logger.banner ;;
  print (Colors.WHITE ++ usage_text ++ Colors.END).

(** [execute] of a command object: what it does inside is the
    environment's; the trace records that it ran and with what. *)
Definition run_execute (e : env) (inv : invocation) : M bool :=
  fun w =>
    (execute e inv,
     {| fs := fs w; ticks := ticks w; trace := trace w ++ [Execute inv] |}).

(** The [--jobs] block of [main] (lines 648 to 656): the number of jobs, or
    [None] where the block reports the error and returns 1. *)
Definition parse_jobs (e : env) (options : list string) : option Z :=
  if mem "--jobs" options then
    match index_of "--jobs" options with
    | Some job_index =>
        if (job_index + 1 <? List.length options)%nat then
          int_of_str e (nth (job_index + 1) options "")
        else Some 4
    | None => None
    end
  else Some 4.

(** The commands a trace executed. *)
Fixpoint executed (t : list event) : list invocation :=
  match t with
  | [] => []
  | Execute inv :: t' => inv :: executed t'
  | _ :: t' => executed t'
  end.

(** The options of [args]: what stands before the first [--]. *)
Definition options_of (args : list string) : list string :=
  match index_of "--" args with
  | Some sep_index => firstn sep_index args
  | None => args
  end.

(** The application arguments of [args]: what stands after the first [--]. *)
Definition app_args_of (args : list string) : list string :=
  match index_of "--" args with
  | Some sep_index => skipn (sep_index + 1) args
  | None => []
  end.

(** The [try] block of [main] that executes the command (lines 667 to
    695). *)
Definition dispatch (e : env) (command : string) (config : BuildConfig)
    (app_args : list string) (verbose : bool) : M Z :=
  try_except
    (let finish (success : bool) : M Z := ret (if success then 0 else 1) in
     if String.eqb command "status" then
       success <- run_execute e StatusCommand ;; finish success
     else if String.eqb command "clean" then
       success <- run_execute e CleanCommand ;; finish success
     else if String.eqb command "build" then
       success <- run_execute e (BuildCommand config) ;; finish success
     else if String.eqb command "run" then
       success <- run_execute e (RunCommand app_args) ;; finish success
     else if String.eqb command "test" then
       success <- run_execute e TestCommand ;; finish success
     else if String.eqb command "format" then
       success <- run_execute e FormatCommand ;; finish success
     else
       Logger.error ("Unknown command: " ++ command) ;;
       show_help ;;
       ret 1)
    (fun _ => true)
    (fun ex =>
       match ex with
       | KeyboardInterrupt =>
           Logger.info "Operation interrupted by user" ;;
           ret 1
       | _ =>
           Logger.error ("Script execution failed: " ++ str_exn e ex) ;;
           (* [traceback.print_exc()] writes to [sys.stderr] *)
           (if verbose then emit (Stderr (format_exc e ex)) else ret tt) ;;
           ret 1
       end).

Definition main (e : env) (argv : list string) : M Z :=
  match argv with
  | [] | [_] =>
      show_help ;;
      ret 0
  | _ :: argv1 :: args =>
      (* Parse command and arguments *)
      let command := lower argv1 in
      if String.eqb command "help" then
        show_help ;;
        ret 0
      else
        (* Separate app arguments if -- is present *)
        let options := options_of args in
        let app_args := app_args_of args in
        (* Parse options *)
        let debug_mode := mem "--debug" options in
        let release_mode := mem "--release" options in
        let verbose := mem "--verbose" options in
        match parse_jobs e options with
        | None =>
            Logger.error "Invalid --jobs value" ;;
            ret 1
        | Some jobs =>
            (* Create project manager and build config *)
            let config :=
              mkBuildConfig (if debug_mode then "Debug" else "Release")
                "clang++" "Unix Makefiles" jobs verbose in
            (* Execute commands *)
            dispatch e command config app_args verbose
        end
  end.

(** One run of [main] from a fresh world. *)
Definition run (e : env) (argv : list string) (fs0 : file_system) : result Z * world :=
  main e argv (initial_world fs0).

(** The command objects by name, as a table of what the [if]/[elif] chain
    of [main] (lines 668 to 679) picks and what it hands to [execute]. *)
Definition command_table
    : list (string * (BuildConfig -> list string -> invocation)) :=
  [ ("status", fun _ _ => StatusCommand);
    ("clean", fun _ _ => CleanCommand);
    ("build", fun config _ => BuildCommand config);
    ("run", fun _ app_args => RunCommand app_args);
    ("test", fun _ _ => TestCommand);
    ("format", fun _ _ => FormatCommand) ].

(** *** The bodies of the run, test and build commands

    [main] reaches a command object through [run_execute] and takes what it
    returns from the environment.  Below, [execute] of [RunCommand],
    [TestCommand] and [BuildCommand] is embedded on its own, with the two
    tests of [TestCommand] that are still missing. *)

(** What these take from Python beyond [env]. *)
Record formats : Type := mkFormats {
  repr_list : list string -> string;  (* [f"{xs}"] for a list of [str] *)
  fmt_2f : float -> string;           (* [f"{x:.2f}"] *)
  fmt_size_mb : string -> string
    (* [f"{pm.get_file_size_mb(path):.2f}"] for the file at [path] *)
}.

Module RunCommand.

(** [RunCommand.execute]; [main] hands it a list, [if not app_args] is true
    for the empty one. *)
Definition execute (e : env) (app_args : list string) : M bool :=
  Logger.header "RUNNING APPLICATION" ;;
  (* Check if executable exists *)
  present <- path_exists (exe_path e) ;;
  if negb present then
    Logger.error ("Executable not found: " ++ exe_path e) ;;
    Logger.info "Run 'build' command first" ;;
    ret false
  else
    (* Prepare arguments *)
    app_args <- match app_args with
                | [] =>
                    Logger.info "No arguments provided - showing help" ;;
                    ret ["--help"]
                | _ :: _ =>
                    Logger.info ("Arguments: " ++ join " " app_args) ;;
                    ret app_args
                end ;;
    Logger.info ("Executing: " ++ exe_path e ++ " " ++ join " " app_args) ;;
    Logger.info "Press Ctrl+C to exit the application" ;;
    print (repeat_str "=" 60) ;;
    try_except
      ((* Run the application without capturing output *)
       result <- run_command e (exe_path e :: app_args) None false false ;;
       print (repeat_str "=" 60) ;;
       (if returncode result =? 0 then
          Logger.success "Application exited successfully"
        else
          Logger.warning ("Application exited with code: " ++
                          str_int (returncode result))) ;;
       ret true)
      (fun _ => true)
      (fun ex =>
         match ex with
         | KeyboardInterrupt =>
             print (nl ++ repeat_str "=" 60) ;;
             Logger.info "Application interrupted by user" ;;
             ret true
         | _ =>
             Logger.error ("Failed to run application: " ++ str_exn e ex) ;;
             ret false
         end).

End RunCommand.

(** [TestCommand._test_config_file]; the run of the executable is followed
    by [unlink], so the file system is taken as the executable left it. *)
Definition config_path (e : env) : string := path_join (project_root e) "test_config.yaml".

Definition _test_config_file (e : env) (after : effects) : M TestResult :=
  start_time <- time_time e ;;
  (* Create test config *)
  try_except
    (write_file (config_path e) ;;
     present <- path_exists (exe_path e) ;;
     if present then
       result <- settle after
                   (run_command e [exe_path e; "--config"; config_path e; "--help"]
                      None true true) ;;
       (* Clean up *)
       unlink (config_path e) ;;
       now <- time_time e ;;
       let duration := fsub now start_time in
       ret (mkTestResult "Config File Handling" true (stdout result) "" duration)
     else
       unlink (config_path e) ;;
       ret (mkTestResult "Config File Handling" false "" "Executable not found" fzero))
    is_Exception
    (fun ex =>
       still <- path_exists (config_path e) ;;
       (if still then unlink (config_path e) else ret tt) ;;
       now <- time_time e ;;
       ret (mkTestResult "Config File Handling" false "" (str_exn e ex)
              (fsub now start_time))).

(** [[f for f in required_files if not f.exists()]] *)
Definition missing_files (files : list string) : M (list string) :=
  fun w => (Ok (filter (fun f => negb (node_exists (fs w f))) files), w).

Definition required_files (e : env) : list string :=
  [ exe_path e;
    path_join (path_join (project_root e) "src") "main.cpp";
    path_join (project_root e) "CMakeLists.txt" ].

(** [TestCommand._test_file_structure] *)
Definition _test_file_structure (e : env) (py : formats) : M TestResult :=
  start_time <- time_time e ;;
  missing <- missing_files (required_files e) ;;
  now <- time_time e ;;
  let duration := fsub now start_time in
  match missing with
  | _ :: _ =>
      ret (mkTestResult "File Structure" false ""
             ("Missing files: " ++ repr_list py missing) duration)
  | [] => ret (mkTestResult "File Structure" true "" "" duration)
  end.

Module TestCommand.

(** The body of the loop after [result = test_func()]. *)
Definition report (py : formats) (result : TestResult) : M unit :=
  if passed result then
    Logger.success (name result ++ " - PASSED (" ++ fmt_2f py (duration result) ++ "s)")
  else
    Logger.error (name result ++ " - FAILED (" ++ fmt_2f py (duration result) ++ "s)") ;;
    if String.eqb (error result) "" then ret tt
    else Logger.info ("  Error: " ++ error result).

(** [for test_func in tests: ...] *)
Fixpoint run_tests (py : formats) (tests : list (M TestResult)) : M (list TestResult) :=
  match tests with
  | [] => ret []
  | test_func :: rest =>
      result <- test_func ;;
      report py result ;;
      results <- run_tests py rest ;;
      ret (result :: results)
  end.

(** The five tests in the order of the source.  Each test looks for the
    executable before it starts it, and the last one looks at the files
    again, so the file system is taken as each test's subprocess left it. *)
Definition tests (e : env) (py : formats) (after : effects) : list (M TestResult) :=
  [ settle after (_test_version_check e);
    settle after (_test_help_output e);
    _test_config_file e after;
    settle after (_test_invalid_args e);
    _test_file_structure e py ].

(** [TestCommand.execute] *)
Definition execute (e : env) (py : formats) (after : effects) : M bool :=
  Logger.header "RUNNING TESTS" ;;
  results <- run_tests py (tests e py after) ;;
  (* Summary *)
  let passed := List.length (filter LlmRepl.passed results) in
  let total := List.length results in
  print (nl ++ repeat_str "=" 60) ;;
  (if Nat.eqb passed total then
     Logger.success ("ALL TESTS PASSED (" ++ str_int (Z.of_nat passed) ++ "/" ++
                     str_int (Z.of_nat total) ++ ")")
   else
     Logger.error ("SOME TESTS FAILED (" ++ str_int (Z.of_nat passed) ++ "/" ++
                   str_int (Z.of_nat total) ++ ")")) ;;
  ret (Nat.eqb passed total).

End TestCommand.

Module BuildCommand.

(** [path.mkdir(parents=True)]: without [exist_ok], anything at the path
    raises. *)
Definition mkdir_parents (p : string) : M unit :=
  fun w =>
    match fs w p with
    | Absent =>
        (Ok tt, {| fs := fs_set p (Dir []) (fs w); ticks := ticks w;
                   trace := trace w ++ [Mkdir p] |})
    | _ => (Raise (Exception "FileExistsError"), w)
    end.

Definition cmake_args (config : BuildConfig) : list string :=
  [ "cmake"; "..";
    "-DCMAKE_CXX_COMPILER=" ++ compiler config;
    "-DCMAKE_BUILD_TYPE=" ++ build_type config;
    "-G"; generator config ].

Definition make_args (config : BuildConfig) : list string :=
  (["make"; ("-j" ++ str_int (jobs config))%string] ++
   (if verbose config then ["VERBOSE=1"] else []))%list.

(** [BuildCommand.execute]; the executable is looked for after [make], so
    the file system is taken as the two subprocesses left it. *)
Definition execute (e : env) (py : formats) (after : effects) (config : BuildConfig)
    : M bool :=
  Logger.header "BUILDING APPLICATION" ;;
  Logger.info ("Build Type: " ++ build_type config) ;;
  Logger.info ("Build Directory: " ++ build_dir e) ;;
  (* Create build directory *)
  present <- path_exists (build_dir e) ;;
  (if negb present then
     Logger.info "Creating build directory..." ;;
     mkdir_parents (build_dir e)
   else ret tt) ;;
  try_except
    ((* Configure with CMake *)
     Logger.info "Configuring with CMake..." ;;
     (if verbose config then
        Logger.info ("CMake command: " ++ join " " (cmake_args config))
      else ret tt) ;;
     settle after (run_command e (cmake_args config) (Some (build_dir e)) true true) ;;
     Logger.success "CMake configuration completed" ;;
     (* Build with Make *)
     Logger.info "Building with Make..." ;;
     start_time <- time_time e ;;
     settle after (run_command e (make_args config) (Some (build_dir e)) true true) ;;
     now <- time_time e ;;
     let build_time := fsub now start_time in
     Logger.success ("Build completed in " ++ fmt_1f e build_time ++ " seconds") ;;
     (* Check if executable was created *)
     present <- path_exists (exe_path e) ;;
     if present then
       Logger.success ("Executable created: " ++ exe_name ++ " (" ++
                       fmt_size_mb py (exe_path e) ++ " MB)") ;;
       ret true
     else
       Logger.error "Executable not found after build" ;;
       ret false)
    is_CalledProcessError
    (fun _ =>
       Logger.error "Build failed" ;;
       ret false).

End BuildCommand.

End LlmRepl.

(** ** Sample surroundings

    Concrete environments and file systems on which the theorems below are
    exercised. *)

(** A file system with a single node. *)
Definition fs_with (p : string) (n : node) : file_system :=
  fs_set p n (fun _ => Absent).

(** Decimal integers, as far as the samples need [int(s)]. *)
Definition sample_int (s : string) : option Z :=
  option_map Z.of_int (NilZero.int_of_string s).

(** An environment rooted at [/proj] whose subprocesses end as [run] says
    and whose command objects succeed. *)
Definition sample_env (run : list string -> outcome) : env :=
  {| spawn := run;
     clock := fun n => S754_finite false (Pos.of_succ_nat n) 0;
     project_root := "/proj";
     str_float := fun _ => "0.0";
     fmt_1f := fun _ => "0.0";
     str_exn := fun _ => "error";
     format_exc := fun _ => "Traceback";
     int_of_str := sample_int;
     execute := fun _ => Ok true |}.

(** Every subprocess exits with the code [rc] and prints [out]. *)
Definition exits_with (rc : Z) (out : string) : list string -> outcome :=
  fun _ => Exited rc out "".

(** The command lines that hold [word] exit with [rc], the others with 0. *)
Definition fails_on (word : string) (rc : Z) : list string -> outcome :=
  fun cmd => if mem word cmd then Exited rc "" "" else Exited 0 "" "".

(** No subprocess can be started. *)
Definition cannot_start : list string -> outcome :=
  fun _ => Failed "FileNotFoundError".

(** A project at [/proj] that has been built. *)
Definition built_project : file_system :=
  fun p =>
    if String.eqb p "/proj" then Dir ["build"; "src"]
    else if String.eqb p "/proj/build" then Dir ["llm-repl.exe"]
    else if String.eqb p "/proj/build/llm-repl.exe" then File
    else Absent.

(** A project at [/proj] without a build directory. *)
Definition fresh_project : file_system :=
  fun p => if String.eqb p "/proj" then Dir ["src"] else Absent.

(** A project at [/proj] where a regular file stands at the build path. *)
Definition blocked_project : file_system :=
  fun p =>
    if String.eqb p "/proj" then Dir ["build"; "src"]
    else if String.eqb p "/proj/build" then File
    else Absent.

(** The command lines that hold [word] cannot be started, the others exit
    with 0. *)
Definition missing_tool (word : string) : list string -> outcome :=
  fun cmd => if mem word cmd then Failed "FileNotFoundError" else Exited 0 "" "".

(** An environment like [sample_env] whose command objects end as [ending]
    says. *)
Definition sample_env_executing (ending : invocation -> result bool) : env :=
  {| spawn := exits_with 0 "";
     clock := fun n => S754_finite false (Pos.of_succ_nat n) 0;
     project_root := "/proj";
     str_float := fun _ => "0.0";
     fmt_1f := fun _ => "0.0";
     str_exn := fun _ => "error";
     format_exc := fun _ => "Traceback";
     int_of_str := sample_int;
     execute := ending |}.

(** [build.py] called without any option. *)
Definition build_defaults : Build.Args := Build.mkArgs false false None.

(** [build.py --clean --jobs 8]. *)
Definition build_clean_jobs : Build.Args := Build.mkArgs true false (Some 8).

(** [repl_runner.py] called with every option but [--help-repl]. *)
Definition all_flags : ReplRunner.Args :=
  ReplRunner.mkArgs (Some "sk-xxx") (Some ReplRunner.groq) (Some "llama")
    (Some "custom.yaml") (Some fzero) (Some 256) true false.

(** [repl_runner.py --config '' --model llama --max-tokens 0]. *)
Definition empty_config_flags : ReplRunner.Args :=
  ReplRunner.mkArgs None None (Some "llama") (Some "") None (Some 0) false false.

(** [repl_runner.py --help-repl --model llama]. *)
Definition help_flags : ReplRunner.Args :=
  ReplRunner.mkArgs None None (Some "llama") None None None false true.

(** The run is interrupted from the keyboard. *)
Definition interrupted : list string -> outcome :=
  fun _ => Interrupted.

(** [repl_runner.py] called without any option. *)
Definition no_flags : ReplRunner.Args :=
  ReplRunner.mkArgs None None None None None None false false.

(** Python's formats, as far as the samples need them. *)
Definition sample_formats : LlmRepl.formats :=
  {| LlmRepl.repr_list := fun xs => "[" ++ join ", " xs ++ "]";
     LlmRepl.fmt_2f := fun _ => "0.00";
     LlmRepl.fmt_size_mb := fun _ => "1.00" |}.

(** A built project at [/proj] with the sources the file structure test
    asks for. *)
Definition complete_project : file_system :=
  fun p =>
    if String.eqb p "/proj/src/main.cpp" then File
    else if String.eqb p "/proj/CMakeLists.txt" then File
    else built_project p.

(** [make] leaves the executable behind, the other processes nothing. *)
Definition make_builds : effects :=
  fun cmd fs' =>
    if mem "make" cmd then fs_set "/proj/build/llm-repl.exe" File fs' else fs'.

(** The executable answers [--version] and [--help] as the tests expect and
    exits with 2 on every other command line. *)
Definition well_behaved : list string -> outcome :=
  fun cmd =>
    if mem "--help" cmd then Exited 0 "LLM REPL - Interactive AI Chat Terminal" ""
    else if mem "--version" cmd then Exited 0 "LLM REPL v1.0" ""
    else Exited 2 "" "unknown option".

(** [complete_project] with a [test_config.yaml] of the user's in it. *)
Definition configured_project : file_system :=
  fs_set "/proj/test_config.yaml" File complete_project.

(** * Theorems *)

(** ** Running a script symbolically *)

Lemma fs_set_same (p : string) (n : node) (f : file_system) : fs_set p n f p = n.
Proof. unfold fs_set. now rewrite String.eqb_refl. Qed.

Lemma spawns_app (t1 t2 : list event) :
  spawns (t1 ++ t2) = (spawns t1 ++ spawns t2)%list.
Proof.
  induction t1 as [|ev t1 IH]; [reflexivity|].
  destruct ev; cbn; now rewrite ?IH.
Qed.

(** One step of evaluation: the primitives of the monad are unfolded, text
    and comparisons of exit codes are left folded. *)
Ltac exec :=
  cbn -[String.append join Z.eqb] in *;
  unfold rmtree, mkdir_exist_ok, path_exists, subprocess_run, print, emit,
    time_time in *;
  cbn -[String.append join Z.eqb] in *;
  rewrite ?fs_set_same in *.

Ltac split_rc :=
  repeat match goal with
         | |- context [?z =? 0] => destruct (Z.eqb_spec z 0); exec
         end.

Ltac same_list :=
  repeat match goal with
         | H : _ :: _ = _ :: _ |- _ => inversion H; clear H; subst
         | H : [] = _ :: _ |- _ => discriminate H
         end.

(** ** build.py *)

(** The runs of [Build.main], by the flag [--clean], the state of the build
    path, and the endings of the two subprocesses. *)
Ltac build_cases e args fs0 :=
  unfold Build.run, Build.main, Build.run_command, bind, ret, initial_world;
  generalize (Build.cmake_cmd e args) as configure;
  generalize (Build.build_cmd args) as build;
  generalize (Build.build_dir e) as d;
  intros d build configure;
  destruct (Build.clean args) eqn:Hclean;
  destruct (fs0 d) as [| |entries] eqn:Hd;
  exec; rewrite ?Hd; exec; rewrite ?Hd; exec;
  try (destruct (spawn e configure) as [rc1 o1 e1|m1|] eqn:Hc; exec; split_rc);
  try (destruct (spawn e build) as [rc2 o2 e2|m2|] eqn:Hb; exec; split_rc).





(** ** repl_runner.py *)

Section ReplRunnerFacts.

Import ReplRunner.

Variable e : env.

(** What [run_repl] returns and starts when the executable is there. *)
Lemma run_repl_present (args : option (list string)) (fs0 : file_system) :
  node_exists (fs0 (executable e)) = true ->
  fst (run_repl e args (initial_world fs0)) =
    Ok match spawn e (executable e :: given args) with
       | Exited rc _ _ => rc =? 0
       | Failed _ => false
       | Interrupted => true
       end /\
  spawns (trace (snd (run_repl e args (initial_world fs0)))) =
    [(executable e :: given args, spawn e (executable e :: given args))].
Proof.
  intros Hexe.
  unfold run_repl, check_executable, bind, ret, try_except, initial_world.
  exec. rewrite Hexe. exec.
  destruct (given args) as [|a l]; exec;
    match goal with
    | |- context [spawn e ?c] => destruct (spawn e c) as [rc o er|m|]; exec
    end; split; reflexivity.
Qed.

Lemma given_repl_args (args : Args) :
  given match repl_args e args with [] => None | l => Some l end = repl_args e args.
Proof. destruct (repl_args e args); reflexivity. Qed.

(** [main] without [--help-repl]: its result and its subprocess are those
    of [run_repl] on the arguments built. *)
Lemma main_no_help (args : Args) (fs0 : file_system) :
  help_repl args = false ->
  let r := run_repl e match repl_args e args with [] => None | l => Some l end
             (initial_world fs0) in
  fst (main e args (initial_world fs0)) =
    match fst r with
    | Ok success => Ok (PyInt (if success then 0 else 1))
    | Raise ex => Raise ex
    end /\
  spawns (trace (snd (main e args (initial_world fs0)))) = spawns (trace (snd r)).
Proof.
  intros Hh r. subst r. unfold main. rewrite Hh. unfold bind.
  destruct (run_repl e _ (initial_world fs0)) as [[success|ex] w]; exec.
  - destruct success; exec; split; try reflexivity.
    rewrite spawns_app. cbn. now rewrite app_nil_r.
  - split; reflexivity.
Qed.

(** The command line [main] starts when the executable is there: the
    executable with the arguments built. *)
Lemma started_command (args : Args) (fs0 : file_system) :
  help_repl args = false ->
  node_exists (fs0 (executable e)) = true ->
  map fst (spawns (trace (snd (main e args (initial_world fs0))))) =
    [executable e :: repl_args e args].
Proof.
  intros Hh Hexe.
  destruct (main_no_help args fs0 Hh) as [_ Hsp].
  destruct (run_repl_present
              match repl_args e args with [] => None | l => Some l end
              fs0 Hexe) as [_ Ht].
  rewrite given_repl_args in Ht. now rewrite Hsp, Ht.
Qed.

Lemma script_exit (args : Args) (fs0 : file_system) (v : pyval) :
  fst (main e args (initial_world fs0)) = Ok v ->
  fst (script e args fs0) = exit_status v.
Proof.
  unfold script. destruct (main e args (initial_world fs0)) as [[v'|ex] w]; cbn.
  - now intros [= ->].
  - discriminate.
Qed.

Lemma flag_str_supplied (name : string) (v : option string) :
  v <> Some "" -> flag_str name v = supplied name v.
Proof.
  destruct v as [s|]; cbn; [|reflexivity].
  destruct (String.eqb_spec s ""); [subst; congruence | reflexivity].
Qed.

End ReplRunnerFacts.

(** C1, as amended.  Without [--help-repl], when the executable exists and
    runs to an exit code, the script starts exactly that one subprocess and
    its own exit code is 0 if the executable exited with 0 and 1
    otherwise. *)
Theorem exit_code_collapsed (e : env) (args : ReplRunner.Args) (fs0 : file_system)
    (rc : Z) (out err : string) :
  ReplRunner.help_repl args = false ->
  node_exists (fs0 (ReplRunner.executable e)) = true ->
  spawn e (ReplRunner.executable e :: ReplRunner.repl_args e args) = Exited rc out err ->
  spawns (trace (snd (ReplRunner.script e args fs0))) =
    [(ReplRunner.executable e :: ReplRunner.repl_args e args, Exited rc out err)] /\
  fst (ReplRunner.script e args fs0) = if rc =? 0 then 0 else 1.
Proof.
  intros Hh Hexe Hrun.
  destruct (main_no_help e args fs0 Hh) as [Hres Hsp].
  destruct (run_repl_present e
              match ReplRunner.repl_args e args with [] => None | l => Some l end
              fs0 Hexe) as [Hr Ht].
  rewrite given_repl_args in Hr, Ht. rewrite Hrun in Hr, Ht.
  rewrite Hr in Hres. rewrite Ht in Hsp.
  split.
  - unfold ReplRunner.script.
    destruct (ReplRunner.main e args (initial_world fs0)) as [[v|ex] w]; cbn in *;
      [assumption|discriminate].
  - rewrite (script_exit _ _ _ _ Hres). cbn. now destruct (rc =? 0).
Qed.

(** The executable exits with 3 and the script with 1. *)
Lemma exit_code_collapsed_witness :
  spawns (trace (snd (ReplRunner.script (sample_env (exits_with 3 "")) no_flags
                        built_project))) =
    [(["/proj/build/llm-repl.exe"], Exited 3 "" "")] /\
  fst (ReplRunner.script (sample_env (exits_with 3 "")) no_flags built_project) = 1.
Proof.
  apply (exit_code_collapsed (sample_env (exits_with 3 "")) no_flags built_project
           3 "" ""); reflexivity.
Defined.

(** C1 as stated fails: the executable exists, runs to completion and exits
    with 2, and the script exits with 1. *)
Lemma exit_code_2_not_relayed :
  let e := sample_env (exits_with 2 "") in
  node_exists (built_project (ReplRunner.executable e)) = true /\
  spawns (trace (snd (ReplRunner.script e no_flags built_project))) =
    [([ReplRunner.executable e], Exited 2 "" "")] /\
  fst (ReplRunner.script e no_flags built_project) = 1 /\
  fst (ReplRunner.script e no_flags built_project) <> 2.
Proof. cbv zeta. repeat split; try reflexivity. vm_compute. discriminate. Qed.

(** The arguments built, flag by flag: a string flag is put in when its
    value is not empty, [--max-tokens] when it is not 0. *)
Lemma flag_str_nonempty (name : string) (v : option string) :
  ReplRunner.flag_str name v = ReplRunner.supplied name (ReplRunner.nonempty v).
Proof. destruct v as [s|]; cbn; [|reflexivity]. now destruct (String.eqb s ""). Qed.

Lemma nonempty_supplied (v : option string) :
  v <> Some "" -> ReplRunner.nonempty v = v.
Proof.
  destruct v as [s|]; cbn; [|reflexivity].
  destruct (String.eqb_spec s ""); [subst; congruence | reflexivity].
Qed.

Lemma repl_args_amended (e : env) (args : ReplRunner.Args) :
  ReplRunner.repl_args e args = ReplRunner.amended_forwarded_flags e args.
Proof.
  unfold ReplRunner.repl_args, ReplRunner.amended_forwarded_flags.
  rewrite !flag_str_nonempty.
  replace (ReplRunner.nonempty
             (option_map ReplRunner.provider_name (ReplRunner.provider args)))
    with (option_map ReplRunner.provider_name (ReplRunner.provider args))
    by (now destruct (ReplRunner.provider args) as [[]|]).
  destruct (ReplRunner.temperature args), (ReplRunner.max_tokens args) as [n|];
    cbn [option_map ReplRunner.supplied ReplRunner.nonzero];
    try reflexivity; now destruct (n =? 0).
Qed.

(** C6, as amended.  For every call without [--help-repl], whatever the
    flags are: the arguments built are the flags supplied with a value that
    is not empty, every [--temperature], a [--max-tokens] that is not 0 and
    [--verbose], each with its value, in the fixed order, and nothing else;
    a flag given the empty string and a [--max-tokens] of 0 are left out,
    and the other flags are forwarded all the same.  These arguments are
    what the executable is started with.  When no value is empty and
    [--max-tokens] is not 0, they are every flag the user supplied. *)
Theorem flags_forwarded (e : env) (args : ReplRunner.Args) (fs0 : file_system) :
  ReplRunner.help_repl args = false ->
  ReplRunner.repl_args e args = ReplRunner.amended_forwarded_flags e args /\
  (node_exists (fs0 (ReplRunner.executable e)) = true ->
   map fst (spawns (trace (snd (ReplRunner.main e args (initial_world fs0))))) =
     [ReplRunner.executable e :: ReplRunner.amended_forwarded_flags e args]) /\
  (ReplRunner.config args <> Some "" ->
   ReplRunner.model args <> Some "" ->
   ReplRunner.api_key args <> Some "" ->
   ReplRunner.max_tokens args <> Some 0 ->
   ReplRunner.amended_forwarded_flags e args = ReplRunner.spec_forwarded_flags e args).
Proof.
  intros Hh. split; [apply repl_args_amended|]. split.
  - intros Hexe. rewrite (started_command e args fs0 Hh Hexe).
    now rewrite repl_args_amended.
  - intros Hc Hm Hk Hn.
    unfold ReplRunner.amended_forwarded_flags, ReplRunner.spec_forwarded_flags.
    rewrite !nonempty_supplied by assumption.
    destruct (ReplRunner.max_tokens args) as [n|]; cbn [ReplRunner.nonzero];
      [|reflexivity].
    destruct (Z.eqb_spec n 0); [subst; congruence | reflexivity].
Qed.

(** Every flag supplied: the command line the executable is started with.
    And [--config] with the empty string, [--model llama] and
    [--max-tokens 0]: the executable is started with [--model llama]
    alone. *)
Lemma flags_forwarded_witness :
  map fst (spawns (trace (snd (ReplRunner.main (sample_env (exits_with 0 "")) all_flags
                                 (initial_world built_project))))) =
    [["/proj/build/llm-repl.exe"; "--config"; "custom.yaml"; "--provider"; "groq";
      "--model"; "llama"; "--api-key"; "sk-xxx"; "--temperature"; "0.0";
      "--max-tokens"; "256"; "--verbose"]] /\
  map fst (spawns (trace (snd (ReplRunner.main (sample_env (exits_with 0 ""))
                                 empty_config_flags (initial_world built_project))))) =
    [["/proj/build/llm-repl.exe"; "--model"; "llama"]].
Proof.
  split.
  - destruct (flags_forwarded (sample_env (exits_with 0 "")) all_flags built_project)
      as (_ & H & _); [reflexivity|].
    apply H. reflexivity.
  - destruct (flags_forwarded (sample_env (exits_with 0 "")) empty_config_flags
                built_project) as (_ & H & _); [reflexivity|].
    apply H. reflexivity.
Defined.

(** C6 as stated fails: [--max-tokens 0] is supplied and the executable is
    started without it. *)
Lemma max_tokens_zero_not_forwarded :
  let e := sample_env (exits_with 0 "") in
  let args := ReplRunner.set_max_tokens (Some 0) no_flags in
  ReplRunner.help_repl args = false /\
  ReplRunner.spec_forwarded_flags e args = ["--max-tokens"; "0"] /\
  ReplRunner.repl_args e args = [] /\
  map fst (spawns (trace (snd (ReplRunner.main e args (initial_world built_project))))) =
    [[ReplRunner.executable e]] /\
  ReplRunner.repl_args e args <> ReplRunner.spec_forwarded_flags e args.
Proof. cbv zeta. repeat split; try reflexivity. vm_compute. discriminate. Qed.

(** The arguments built with and without [--max-tokens], and with and
    without [--temperature]. *)
Lemma repl_args_max_tokens (e : env) (args : ReplRunner.Args) (n : Z) :
  n <> 0 ->
  exists before after,
    ReplRunner.repl_args e (ReplRunner.set_max_tokens (Some n) args) =
      (before ++ ["--max-tokens"; str_int n] ++ after)%list /\
    ReplRunner.repl_args e (ReplRunner.set_max_tokens None args) =
      (before ++ after)%list.
Proof.
  intros Hn. unfold ReplRunner.repl_args, ReplRunner.set_max_tokens.
  cbn [ReplRunner.max_tokens ReplRunner.temperature ReplRunner.config
       ReplRunner.provider ReplRunner.model ReplRunner.api_key ReplRunner.verbose].
  destruct (Z.eqb_spec n 0) as [->|_]; [congruence|].
  exists (ReplRunner.flag_str "--config" (ReplRunner.config args) ++
          ReplRunner.flag_str "--provider"
            (option_map ReplRunner.provider_name (ReplRunner.provider args)) ++
          ReplRunner.flag_str "--model" (ReplRunner.model args) ++
          ReplRunner.flag_str "--api-key" (ReplRunner.api_key args) ++
          match ReplRunner.temperature args with
          | Some t => ["--temperature"; str_float e t]
          | None => []
          end)%list.
  eexists. split; rewrite <- !app_assoc; reflexivity.
Qed.

Lemma repl_args_temperature (e : env) (args : ReplRunner.Args) (t : float) :
  exists before after,
    ReplRunner.repl_args e (ReplRunner.set_temperature (Some t) args) =
      (before ++ ["--temperature"; str_float e t] ++ after)%list /\
    ReplRunner.repl_args e (ReplRunner.set_temperature None args) =
      (before ++ after)%list.
Proof.
  unfold ReplRunner.repl_args, ReplRunner.set_temperature.
  cbn [ReplRunner.max_tokens ReplRunner.temperature ReplRunner.config
       ReplRunner.provider ReplRunner.model ReplRunner.api_key ReplRunner.verbose].
  exists (ReplRunner.flag_str "--config" (ReplRunner.config args) ++
          ReplRunner.flag_str "--provider"
            (option_map ReplRunner.provider_name (ReplRunner.provider args)) ++
          ReplRunner.flag_str "--model" (ReplRunner.model args) ++
          ReplRunner.flag_str "--api-key" (ReplRunner.api_key args))%list.
  eexists. split; rewrite <- !app_assoc; reflexivity.
Qed.

(** C8.  What the executable is started with, in a call of [main] without
    [--help-repl] that finds the executable.  With [--max-tokens 0] it is
    started with the command line of the call without [--max-tokens]: the
    value is dropped and nothing is said.  With every other [--max-tokens]
    and with every [--temperature], 0.0 included, it is started with the
    flag and its value between the arguments before it and those after it,
    which are the arguments of the call without the flag. *)
Theorem truthiness_of_forwarding (e : env) (args : ReplRunner.Args) (fs0 : file_system) :
  let exe := ReplRunner.executable e in
  let started (a : ReplRunner.Args) :=
    map fst (spawns (trace (snd (ReplRunner.main e a (initial_world fs0))))) in
  ReplRunner.help_repl args = false ->
  node_exists (fs0 exe) = true ->
  (exists rest,
     started (ReplRunner.set_max_tokens (Some 0) args) = [exe :: rest] /\
     started (ReplRunner.set_max_tokens None args) = [exe :: rest] /\
     printed (trace (snd (ReplRunner.main e (ReplRunner.set_max_tokens (Some 0) args)
                            (initial_world fs0)))) =
     printed (trace (snd (ReplRunner.main e (ReplRunner.set_max_tokens None args)
                            (initial_world fs0))))) /\
  (forall n, n <> 0 ->
     exists before after,
       started (ReplRunner.set_max_tokens (Some n) args) =
         [exe :: before ++ ["--max-tokens"; str_int n] ++ after]%list /\
       started (ReplRunner.set_max_tokens None args) = [exe :: before ++ after]%list) /\
  (forall t,
     exists before after,
       started (ReplRunner.set_temperature (Some t) args) =
         [exe :: before ++ ["--temperature"; str_float e t] ++ after]%list /\
       started (ReplRunner.set_temperature None args) = [exe :: before ++ after]%list) /\
  (exists before after,
     started (ReplRunner.set_temperature (Some fzero) args) =
       [exe :: before ++ ["--temperature"; str_float e fzero] ++ after]%list).
Proof.
  cbv zeta. intros Hh Hexe.
  assert (Hstarted : forall a, ReplRunner.help_repl a = ReplRunner.help_repl args ->
            map fst (spawns (trace (snd (ReplRunner.main e a (initial_world fs0))))) =
            [ReplRunner.executable e :: ReplRunner.repl_args e a]).
  { intros a Ha. apply started_command; [now rewrite Ha | exact Hexe]. }
  assert (Ht : forall t,
     exists before after,
       map fst (spawns (trace (snd (ReplRunner.main e
                  (ReplRunner.set_temperature (Some t) args) (initial_world fs0))))) =
         [ReplRunner.executable e ::
          before ++ ["--temperature"; str_float e t] ++ after]%list /\
       map fst (spawns (trace (snd (ReplRunner.main e
                  (ReplRunner.set_temperature None args) (initial_world fs0))))) =
         [ReplRunner.executable e :: before ++ after]%list).
  { intros t. destruct (repl_args_temperature e args t) as (before & after & H1 & H2).
    exists before, after. rewrite !Hstarted by reflexivity. now rewrite H1, H2. }
  split; [|split; [|split; [exact Ht|]]].
  - exists (ReplRunner.repl_args e (ReplRunner.set_max_tokens None args)).
    rewrite !Hstarted by reflexivity. repeat split.
  - intros n Hn. destruct (repl_args_max_tokens e args n Hn) as (before & after & H1 & H2).
    exists before, after. rewrite !Hstarted by reflexivity. now rewrite H1, H2.
  - destruct (Ht fzero) as (before & after & H & _). now exists before, after.
Qed.

(** C8 on a call with every flag: with [--max-tokens 0] the executable is
    started as without [--max-tokens]; [--max-tokens 7] is put in. *)
Lemma truthiness_of_forwarding_witness :
  (exists rest,
     map fst (spawns (trace (snd (ReplRunner.main (sample_env (exits_with 0 ""))
                                    (ReplRunner.set_max_tokens (Some 0) all_flags)
                                    (initial_world built_project))))) =
       [ReplRunner.executable (sample_env (exits_with 0 "")) :: rest] /\
     map fst (spawns (trace (snd (ReplRunner.main (sample_env (exits_with 0 ""))
                                    (ReplRunner.set_max_tokens None all_flags)
                                    (initial_world built_project))))) =
       [ReplRunner.executable (sample_env (exits_with 0 "")) :: rest]) /\
  exists before after,
    map fst (spawns (trace (snd (ReplRunner.main (sample_env (exits_with 0 ""))
                                   (ReplRunner.set_max_tokens (Some 7) all_flags)
                                   (initial_world built_project))))) =
    [(ReplRunner.executable (sample_env (exits_with 0 "")) ::
      before ++ ["--max-tokens"; "7"] ++ after)%list].
Proof.
  destruct (truthiness_of_forwarding (sample_env (exits_with 0 "")) all_flags
              built_project eq_refl eq_refl) as ((rest & H0 & H1 & _) & Hn & _).
  split.
  - exists rest. split; [exact H0 | exact H1].
  - destruct (Hn 7 ltac:(lia)) as (before & after & H & _).
    exists before, after. exact H.
Defined.

(** ** validate.py *)

Section ValidateFacts.

Import Validate.

Variable e : env.

Lemma printed_app (t1 t2 : list event) :
  printed (t1 ++ t2) = (printed t1 ++ printed t2)%list.
Proof.
  induction t1 as [|ev t1 IH]; [reflexivity|].
  destruct ev; cbn; now rewrite ?IH.
Qed.

Lemma printed_outs (lines : list string) : printed (map Out lines) = lines.
Proof. induction lines as [|l ls IH]; cbn; now rewrite ?IH. Qed.

Lemma spawns_outs (lines : list string) : spawns (map Out lines) = [].
Proof. induction lines as [|l ls IH]; cbn; now rewrite ?IH. Qed.

(** A step whose subprocess runs to an exit code: the entry it adds to
    [results] and the one subprocess it starts. *)
Lemma run_step_exited (step_name : string) (command : list string) (w : world)
    (rc : Z) (out err : string) :
  spawn e command = Exited rc out err ->
  exists d w' t,
    run_step e step_name command w = (Ok (step_name, rc =? 0, d), w') /\
    trace w' = (trace w ++ t)%list /\
    spawns t = [(command, Exited rc out err)].
Proof.
  intros Hrun.
  unfold run_step, bind, ret, try_except. exec. rewrite Hrun. exec.
  destruct (Z.eqb_spec rc 0) as [Hrc|Hrc]; exec; rewrite <- !app_assoc; cbn [app];
    (do 3 eexists; split; [reflexivity | split; reflexivity]).
Qed.

(** A step whose subprocess does not run to an exit code leaves the loop by
    the exception. *)
Lemma run_step_not_exited (step_name : string) (command : list string) (w : world) :
  exited (spawn e command) = false ->
  exists ex w', run_step e step_name command w = (Raise ex, w').
Proof.
  intros Hex.
  unfold run_step, bind, ret, try_except. exec.
  destruct (spawn e command); [discriminate| |]; exec; eauto.
Qed.

(** The loop over steps that all run to an exit code: one entry per step,
    in order, and one subprocess per step, in order. *)
Lemma run_steps_exited (steps : list (string * list string)) :
  all_exit e steps = true ->
  forall results w,
  exists ds w' t,
    run_steps e steps results w =
      (Ok (results ++
           map (fun sd : string * list string * float =>
                  (fst (fst sd), succeeded (spawn e (snd (fst sd))), snd sd))
               (combine steps ds))%list, w') /\
    List.length ds = List.length steps /\
    trace w' = (trace w ++ t)%list /\
    spawns t = map (fun s : string * list string => (snd s, spawn e (snd s))) steps.
Proof.
  unfold all_exit.
  induction steps as [|[step_name command] rest IH]; intros Hall results w.
  - exists [], w, []. cbn. rewrite !app_nil_r. auto.
  - cbn [forallb snd] in Hall. apply andb_true_iff in Hall as [Hhd Hrest].
    destruct (spawn e command) as [rc out err| |] eqn:Hrun; try discriminate.
    destruct (run_step_exited step_name command w rc out err Hrun)
      as (d & w1 & t1 & Hstep & Ht1 & Hs1).
    destruct (IH Hrest (results ++ [(step_name, rc =? 0, d)])%list w1)
      as (ds & w2 & t2 & Hsteps & Hlen & Ht2 & Hs2).
    exists (d :: ds), w2, (t1 ++ t2)%list.
    cbn [run_steps]. unfold bind. rewrite Hstep. cbv beta iota.
    split; [|split; [|split]].
    + etransitivity; [exact Hsteps|].
      cbn [combine map fst snd]. rewrite Hrun. cbn [succeeded].
      rewrite <- app_assoc. reflexivity.
    + cbn [List.length]. now rewrite Hlen.
    + rewrite Ht2, Ht1. now rewrite app_assoc.
    + rewrite spawns_app, Hs1, Hs2. cbn [map snd app]. rewrite Hrun. reflexivity.
Qed.

Lemma run_steps_not_exited (steps : list (string * list string)) :
  all_exit e steps = false ->
  forall results w, exists ex w', run_steps e steps results w = (Raise ex, w').
Proof.
  unfold all_exit.
  induction steps as [|[step_name command] rest IH]; intros Hall results w;
    [discriminate|].
  cbn [forallb snd] in Hall. cbn [run_steps]. unfold bind.
  destruct (exited (spawn e command)) eqn:Hex.
  - destruct (spawn e command) as [rc out err| |] eqn:Hrun; try discriminate.
    destruct (run_step_exited step_name command w rc out err Hrun)
      as (d & w1 & t1 & Hstep & _).
    rewrite Hstep. cbv beta iota. apply IH. exact Hall.
  - destruct (run_step_not_exited step_name command w Hex) as (ex & w' & Hstep).
    rewrite Hstep. cbv beta iota. eauto.
Qed.

Lemma print_lines_trace (lines : list string) (w : world) :
  print_lines lines w =
    (Ok tt, {| fs := fs w; ticks := ticks w; trace := trace w ++ map Out lines |}).
Proof.
  revert w. induction lines as [|l ls IH]; intros w; cbn [print_lines map].
  - unfold ret. rewrite app_nil_r. now destruct w.
  - unfold bind, print, emit. rewrite IH. cbn. now rewrite <- app_assoc.
Qed.

(** [passed == total] holds exactly when every entry is a success. *)
Lemma count_passed_all (rs : list step_result) :
  (count_passed rs =? List.length rs)%nat =
    forallb (fun r : step_result => snd (fst r)) rs.
Proof.
  unfold count_passed. induction rs as [|r rs IH]; [reflexivity|].
  cbn [filter forallb List.length]. destruct (snd (fst r)); cbn [List.length andb].
  - exact IH.
  - apply Nat.eqb_neq.
    pose proof (filter_length_le (fun r : step_result => snd (fst r)) rs). lia.
Qed.

Lemma forallb_results (steps : list (string * list string)) (ds : list float) :
  List.length ds = List.length steps ->
  forallb (fun r : step_result => snd (fst r))
    (map (fun sd : string * list string * float =>
            (fst (fst sd), succeeded (spawn e (snd (fst sd))), snd sd))
         (combine steps ds)) = all_succeed e steps.
Proof.
  unfold all_succeed. revert ds.
  induction steps as [|s rest IH]; intros [|d ds] Hlen; try discriminate;
    [reflexivity|].
  cbn [combine map forallb fst snd]. now rewrite IH by (cbn in Hlen; lia).
Qed.

Lemma report_lines (steps : list (string * list string)) (ds : list float) :
  map (report_line e)
    (map (fun sd : string * list string * float =>
            (fst (fst sd), succeeded (spawn e (snd (fst sd))), snd sd))
         (combine steps ds)) =
  map (fun sd : string * list string * float => spec_report_line e (fst sd) (snd sd))
    (combine steps ds).
Proof. rewrite map_map. apply map_ext. now intros [[step_name command] d]. Qed.

Lemma report_shape {A : Type} (a b c d : A) (l1 l2 : list A) :
  (((((a :: l1) ++ [b]) ++ l2) ++ [c]) ++ [d] = a :: l1 ++ b :: l2 ++ [c; d])%list.
Proof. cbn [app]. now rewrite <- !app_assoc. Qed.

(** A run of [run_validation] in which every subprocess runs to an exit
    code: the value returned, the subprocesses started, and what is
    printed. *)
Lemma run_validation_exited (fs0 : file_system) :
  all_exit e validation_steps = true ->
  exists ds progress overall closing,
    List.length ds = List.length validation_steps /\
    fst (run e fs0) = Ok (if all_succeed e validation_steps then 0 else 1) /\
    spawns (trace (snd (run e fs0))) =
      map (fun s : string * list string => (snd s, spawn e (snd s))) validation_steps /\
    printed (trace (snd (run e fs0))) =
      (banner_text :: progress ++
       summary_text ::
       map (fun sd : string * list string * float =>
              spec_report_line e (fst sd) (snd sd))
           (combine validation_steps ds) ++
       [overall; closing])%list.
Proof.
  unfold run, run_validation. generalize validation_steps as steps.
  intros steps Hall. unfold bind, initial_world. exec.
  match goal with
  | |- context [run_steps e steps [] ?w0] =>
      destruct (run_steps_exited steps Hall [] w0)
        as (ds & w1 & t & Hsteps & Hlen & Ht & Hsp)
  end.
  rewrite Hsteps. exec. rewrite print_lines_trace. exec.
  match goal with
  | |- context [filter _ ?rs] =>
      pose proof (count_passed_all rs) as Hc; unfold count_passed in Hc
  end.
  rewrite !Hc, !(forallb_results steps ds Hlen), report_lines, Ht.
  exists ds, (printed t).
  destruct (all_succeed e steps); exec;
    (do 2 eexists; split; [exact Hlen|]; split; [reflexivity|]; split;
     [ rewrite !spawns_app, spawns_outs; cbn [spawns app];
       now rewrite !app_nil_r
     | rewrite !printed_app, printed_outs; cbn [printed]; apply report_shape ]).
Qed.

(** A run in which some subprocess does not run to an exit code does not
    return. *)
Lemma run_validation_not_exited (fs0 : file_system) :
  all_exit e validation_steps = false ->
  exists ex w', run e fs0 = (Raise ex, w').
Proof.
  unfold run, run_validation. generalize validation_steps as steps.
  intros steps Hall. unfold bind, initial_world. exec.
  match goal with
  | |- context [run_steps e steps [] ?w0] =>
      destruct (run_steps_not_exited steps Hall [] w0) as (ex & w1 & Hsteps)
  end.
  rewrite Hsteps. eauto.
Qed.

Lemma all_succeed_exit (steps : list (string * list string)) :
  all_succeed e steps = true -> all_exit e steps = true.
Proof.
  unfold all_succeed, all_exit. rewrite !forallb_forall.
  intros H s Hs. specialize (H s Hs). now destruct (spawn e (snd s)).
Qed.

End ValidateFacts.

(** C3, as amended.  In every run of [run_validation] in which the subprocess of every
    step runs to an exit code, whatever the codes are, the subprocesses
    started are those of the seven steps, one for each step, in the order
    status, clean, build --release, test, format, run -- --version,
    run -- --help. *)
Theorem steps_invoked_in_order (e : env) (fs0 : file_system) :
  Validate.all_exit e Validate.validation_steps = true ->
  spawns (trace (snd (Validate.run e fs0))) =
    map (fun cmd => (cmd, spawn e cmd))
      [ ["python"; "llm-repl.py"; "status"];
        ["python"; "llm-repl.py"; "clean"];
        ["python"; "llm-repl.py"; "build"; "--release"];
        ["python"; "llm-repl.py"; "test"];
        ["python"; "llm-repl.py"; "format"];
        ["python"; "llm-repl.py"; "run"; "--"; "--version"];
        ["python"; "llm-repl.py"; "run"; "--"; "--help"] ].
Proof.
  intros Hall.
  destruct (run_validation_exited e fs0 Hall) as (ds & pr & ov & cl & _ & _ & Hsp & _).
  exact Hsp.
Qed.

(** Every step exits with 1, and all seven are started, in order. *)
Lemma steps_invoked_in_order_witness :
  spawns (trace (snd (Validate.run (sample_env (exits_with 1 "")) fresh_project))) =
    [ (["python"; "llm-repl.py"; "status"], Exited 1 "" "");
      (["python"; "llm-repl.py"; "clean"], Exited 1 "" "");
      (["python"; "llm-repl.py"; "build"; "--release"], Exited 1 "" "");
      (["python"; "llm-repl.py"; "test"], Exited 1 "" "");
      (["python"; "llm-repl.py"; "format"], Exited 1 "" "");
      (["python"; "llm-repl.py"; "run"; "--"; "--version"], Exited 1 "" "");
      (["python"; "llm-repl.py"; "run"; "--"; "--help"], Exited 1 "" "") ].
Proof.
  apply (steps_invoked_in_order (sample_env (exits_with 1 "")) fresh_project).
  reflexivity.
Defined.

(** C2, as amended.  [run_validation] returns 0 exactly when the subprocesses of all
    seven steps exit with code 0.  When every subprocess runs to an exit
    code and not all of the codes are 0, it returns 1; and the report
    printed after the summary header has one line per step, in order, that
    starts with [PASS] when the subprocess of the step exited with 0 and
    with [FAIL] otherwise. *)
Theorem validation_result_and_report (e : env) (fs0 : file_system) :
  (fst (Validate.run e fs0) = Ok 0 <->
   Validate.all_succeed e Validate.validation_steps = true) /\
  (Validate.all_exit e Validate.validation_steps = true ->
   (Validate.all_succeed e Validate.validation_steps = false ->
    fst (Validate.run e fs0) = Ok 1) /\
   exists durations progress overall closing,
     List.length durations = 7%nat /\
     printed (trace (snd (Validate.run e fs0))) =
       (Validate.banner_text :: progress ++
        Validate.summary_text ::
        map (fun sd : string * list string * float =>
               Validate.spec_report_line e (fst sd) (snd sd))
            (combine Validate.validation_steps durations) ++
        [overall; closing])%list).
Proof.
  split.
  - destruct (Validate.all_exit e Validate.validation_steps) eqn:Hall.
    + destruct (run_validation_exited e fs0 Hall) as (ds & pr & ov & cl & _ & Hr & _).
      rewrite Hr. destruct (Validate.all_succeed e Validate.validation_steps);
        split; congruence.
    + destruct (run_validation_not_exited e fs0 Hall) as (ex & w' & Hr).
      rewrite Hr. split; [discriminate|].
      intros Hs. apply all_succeed_exit in Hs. congruence.
  - intros Hall.
    destruct (run_validation_exited e fs0 Hall) as (ds & pr & ov & cl & Hlen & Hr & _ & Hp).
    split.
    + intros Hs. now rewrite Hr, Hs.
    + now exists ds, pr, ov, cl.
Qed.

(** The test step exits with 1 and the other six with 0: the function
    returns 1, and the report has the seven lines. *)
Lemma validation_result_and_report_witness :
  fst (Validate.run (sample_env (fails_on "test" 1)) fresh_project) = Ok 1 /\
  exists durations progress overall closing,
    List.length durations = 7%nat /\
    printed (trace (snd (Validate.run (sample_env (fails_on "test" 1)) fresh_project))) =
      (Validate.banner_text :: progress ++
       Validate.summary_text ::
       map (fun sd : string * list string * float =>
              Validate.spec_report_line (sample_env (fails_on "test" 1)) (fst sd) (snd sd))
           (combine Validate.validation_steps durations) ++
       [overall; closing])%list.
Proof.
  destruct (validation_result_and_report (sample_env (fails_on "test" 1)) fresh_project)
    as [_ H].
  destruct (H eq_refl) as [H1 H2].
  split; [apply H1; reflexivity | exact H2].
Defined.

(** C2 as stated fails.  The subprocess of the test step cannot be started:
    not all steps exit with 0, and [run_validation] does not return 1, it
    raises; and it prints no report: the summary header is not printed, and
    no printed line starts with [PASS] or with [FAIL]. *)
Lemma validation_raises_without_report :
  let e := sample_env (missing_tool "test") in
  Validate.all_succeed e Validate.validation_steps = false /\
  fst (Validate.run e fresh_project) = Raise (Exception "FileNotFoundError") /\
  fst (Validate.run e fresh_project) <> Ok 1 /\
  forallb (fun text =>
             negb (String.eqb text Validate.summary_text) &&
             negb (String.prefix "[PASS]" text) && negb (String.prefix "[FAIL]" text))
    (printed (trace (snd (Validate.run e fresh_project)))) = true.
Proof. cbv zeta. repeat split; try reflexivity; vm_compute; discriminate. Qed.

(** C3 as stated fails.  The subprocess of the build step cannot be
    started: the exception ends the loop, and of the seven steps only the
    first three are invoked. *)
Lemma unstartable_step_ends_the_run :
  let e := sample_env (missing_tool "build") in
  spawns (trace (snd (Validate.run e fresh_project))) =
    [ (["python"; "llm-repl.py"; "status"], Exited 0 "" "");
      (["python"; "llm-repl.py"; "clean"], Exited 0 "" "");
      (["python"; "llm-repl.py"; "build"; "--release"], Failed "FileNotFoundError") ] /\
  existsb (fun call => mem "test" (fst call))
    (spawns (trace (snd (Validate.run e fresh_project)))) = false /\
  List.length (spawns (trace (snd (Validate.run e fresh_project)))) <> 7%nat.
Proof. cbv zeta. repeat split; try reflexivity; vm_compute; discriminate. Qed.

(** ** llm-repl.py *)

(** [sub in s] is true exactly when [sub] occurs in [s]. *)
Lemma prefix_app (a b : string) :
  String.prefix a b = true <-> exists post, b = a ++ post.
Proof.
  revert b. induction a as [|c a IH]; intros b.
  - split; [intros _; now exists b | now destruct b].
  - destruct b as [|c' b]; cbn.
    + split; [discriminate | intros [post H]; discriminate].
    + destruct (Ascii.ascii_dec c c') as [->|Hne].
      * rewrite IH. split; intros [post H]; exists post; congruence.
      * split; [discriminate | intros [post H]; congruence].
Qed.

Lemma contains_here (sub s : string) :
  String.prefix sub s = true -> contains sub s = true.
Proof. intros H. destruct s; cbn [contains]; now rewrite H. Qed.

Lemma contains_spec (sub s : string) :
  contains sub s = true <-> exists pre post, s = pre ++ sub ++ post.
Proof.
  split.
  - induction s as [|c s IH]; cbn [contains];
      destruct (String.prefix sub _) eqn:Hp.
    + intros _. apply prefix_app in Hp as [post ->]. now exists "", post.
    + discriminate.
    + intros _. apply prefix_app in Hp as [post ->]. now exists "", post.
    + intros H. destruct (IH H) as (pre & post & ->). now exists (String c pre), post.
  - intros (pre & post & ->). induction pre as [|c pre IH].
    + apply contains_here, prefix_app. now exists post.
    + cbn [String.append contains]. rewrite IH. now destruct (String.prefix _ _).
Qed.

(** The runs of one of the tests, by the presence of the executable, the
    ending of the subprocess, and what the output holds. *)
Ltac test_cases e fs0 :=
  unfold LlmRepl.passes, LlmRepl._test_version_check, LlmRepl._test_help_output,
    LlmRepl._test_invalid_args, LlmRepl.run_command, LlmRepl.Logger.error,
    bind, ret, raise, try_except, initial_world;
  exec;
  destruct (node_exists (fs0 (LlmRepl.exe_path e))) eqn:Hexe; exec;
  [ match goal with
    | |- context [spawn e ?cmd] =>
        destruct (spawn e cmd) as [rc out err|msg|] eqn:Hrun; exec;
        [ destruct (Z.eqb_spec rc 0) as [Hrc|Hrc]; exec;
          repeat match goal with
                 | |- context [if ?b then _ else _] => destruct b eqn:?; exec
                 end
        | | ]
    end
  | ].

Ltac refute_run :=
  match goal with
  | H : _ /\ _ |- _ => destruct H as [? (? & ? & ? & ?)]
  end;
  try discriminate;
  repeat match goal with
         | H : Exited _ _ _ = Exited _ _ _ |- _ => injection H as ? ? ?; subst
         | H : exists pre post, _ = _ |- _ => apply contains_spec in H
         end;
  congruence.

Ltac confirm_run :=
  intros _; split; [reflexivity|]; subst;
  do 2 eexists; split; [reflexivity|]; now apply contains_spec.

Ltac settle_test e fs0 :=
  test_cases e fs0;
  (split; [first [discriminate | confirm_run] | intros H; refute_run]).

(** C7.  The Version Check test passes exactly when the executable exists,
    the run with [--version] exits with code 0, and the captured stdout
    holds [LLM REPL v] somewhere; the Help Output test passes exactly when
    the executable exists, the run with [--help] exits with code 0, and the
    captured stdout holds [Interactive AI Chat Terminal] somewhere. *)
Theorem version_and_help_tests (e : env) (fs0 : file_system) :
  (LlmRepl.passes (LlmRepl._test_version_check e (initial_world fs0)) = true <->
   node_exists (fs0 (LlmRepl.exe_path e)) = true /\
   exists out err,
     spawn e [LlmRepl.exe_path e; "--version"] = Exited 0 out err /\
     exists pre post, out = pre ++ "LLM REPL v" ++ post) /\
  (LlmRepl.passes (LlmRepl._test_help_output e (initial_world fs0)) = true <->
   node_exists (fs0 (LlmRepl.exe_path e)) = true /\
   exists out err,
     spawn e [LlmRepl.exe_path e; "--help"] = Exited 0 out err /\
     exists pre post, out = pre ++ "Interactive AI Chat Terminal" ++ post).
Proof. split; settle_test e fs0. Qed.

(** The executable is there, exits with 0 and prints its version: the
    Version Check test passes. *)
Lemma version_and_help_tests_witness :
  LlmRepl.passes
    (LlmRepl._test_version_check (sample_env (exits_with 0 "LLM REPL v1.0.0"))
       (initial_world built_project)) = true.
Proof.
  apply (proj1 (version_and_help_tests (sample_env (exits_with 0 "LLM REPL v1.0.0"))
                  built_project)).
  split; [reflexivity|].
  exists "LLM REPL v1.0.0", "". split; [reflexivity|].
  now exists "", "1.0.0".
Defined.

(** C9.  When the executable exists and the run with [--invalid-flag] is not
    interrupted from the keyboard, the Invalid Arguments test returns a
    result with [passed] true, whatever the exit code and the output are and
    also when the run raises an exception; a result with [passed] false is
    returned only when the executable is missing, and is returned then. *)
Theorem invalid_args_test_passes (e : env) (fs0 : file_system) :
  let r := fst (LlmRepl._test_invalid_args e (initial_world fs0)) in
  (node_exists (fs0 (LlmRepl.exe_path e)) = true ->
   spawn e [LlmRepl.exe_path e; "--invalid-flag"] <> Interrupted ->
   exists t, r = Ok t /\ LlmRepl.passed t = true) /\
  (forall t, r = Ok t -> LlmRepl.passed t = false ->
     node_exists (fs0 (LlmRepl.exe_path e)) = false) /\
  (node_exists (fs0 (LlmRepl.exe_path e)) = false ->
   exists t, r = Ok t /\ LlmRepl.passed t = false).
Proof.
  cbv zeta. test_cases e fs0.
  all: repeat split; intros; try congruence; try discriminate.
  all: try (eexists; split; reflexivity).
  all: try match goal with
           | H : Ok _ = Ok _ |- _ => injection H as <-; discriminate
           end.
Qed.

(** The executable is there and cannot be started: the test passes. *)
Lemma invalid_args_test_passes_witness :
  exists t,
    fst (LlmRepl._test_invalid_args (sample_env cannot_start)
           (initial_world built_project)) = Ok t /\
    LlmRepl.passed t = true.
Proof.
  apply (invalid_args_test_passes (sample_env cannot_start) built_project);
    [reflexivity | discriminate].
Defined.

(** *** The [--jobs] option *)

Lemma mem_app_here (x : string) (pre rest : list string) :
  mem x (pre ++ x :: rest) = true.
Proof.
  induction pre as [|y pre IH]; cbn.
  - now rewrite String.eqb_refl.
  - rewrite IH. now destruct (String.eqb y x).
Qed.

(** [xs.index(x)] is the position of the first [x]. *)
Lemma index_of_first (x : string) (pre rest : list string) :
  mem x pre = false ->
  index_of x (pre ++ x :: rest) = Some (List.length pre).
Proof.
  induction pre as [|y pre IH]; cbn.
  - now rewrite String.eqb_refl.
  - destruct (String.eqb y x); [discriminate|].
    intros H. now rewrite (IH H).
Qed.

Lemma parse_jobs_last (e : env) (pre : list string) :
  mem "--jobs" pre = false ->
  LlmRepl.parse_jobs e (pre ++ ["--jobs"]) = Some 4.
Proof.
  intros Hpre. unfold LlmRepl.parse_jobs.
  rewrite mem_app_here, (index_of_first _ _ _ Hpre), length_app. cbn [List.length].
  now replace (List.length pre + 1 <? List.length pre + 1)%nat with false
    by (symmetry; apply Nat.ltb_irrefl).
Qed.

Lemma parse_jobs_value (e : env) (pre post : list string) (tok : string) :
  mem "--jobs" pre = false ->
  LlmRepl.parse_jobs e (pre ++ "--jobs" :: tok :: post) = int_of_str e tok.
Proof.
  intros Hpre. unfold LlmRepl.parse_jobs.
  rewrite mem_app_here, (index_of_first _ _ _ Hpre), length_app. cbn [List.length].
  replace (List.length pre + 1 <? List.length pre + S (S (List.length post)))%nat
    with true by (symmetry; apply Nat.ltb_lt; lia).
  rewrite app_nth2 by lia.
  now replace (List.length pre + 1 - List.length pre)%nat with 1%nat by lia.
Qed.

(** C10, as amended.  For a command other than [help], with the first
    [--jobs] among the options: when it is the last option, [main] is the
    execution of the command with 4 jobs and prints nothing of its own;
    when a token follows it that is no integer, [main] returns 1 having
    printed the error and nothing else, without executing a command or
    starting a subprocess. *)
Theorem jobs_option_parsed (e : env) (script command : string)
    (args pre : list string) (fs0 : file_system) :
  lower command <> "help" ->
  mem "--jobs" pre = false ->
  (LlmRepl.options_of args = (pre ++ ["--jobs"])%list ->
   LlmRepl.main e (script :: command :: args) =
     LlmRepl.dispatch e (lower command)
       (mkBuildConfig
          (if mem "--debug" (LlmRepl.options_of args) then "Debug" else "Release")
          "clang++" "Unix Makefiles" 4 (mem "--verbose" (LlmRepl.options_of args)))
       (LlmRepl.app_args_of args) (mem "--verbose" (LlmRepl.options_of args))) /\
  (forall tok post,
     LlmRepl.options_of args = (pre ++ "--jobs" :: tok :: post)%list ->
     int_of_str e tok = None ->
     fst (LlmRepl.run e (script :: command :: args) fs0) = Ok 1 /\
     printed (trace (snd (LlmRepl.run e (script :: command :: args) fs0))) =
       [LlmRepl.Colors.RED ++ "[ERROR] Invalid --jobs value" ++ LlmRepl.Colors.END] /\
     LlmRepl.executed (trace (snd (LlmRepl.run e (script :: command :: args) fs0))) = [] /\
     spawns (trace (snd (LlmRepl.run e (script :: command :: args) fs0))) = []).
Proof.
  intros Hcmd Hpre.
  apply String.eqb_neq in Hcmd.
  split.
  - intros Hopt.
    assert (Hj : LlmRepl.parse_jobs e (LlmRepl.options_of args) = Some 4)
      by (rewrite Hopt; now apply parse_jobs_last).
    unfold LlmRepl.main. now rewrite Hcmd, Hj.
  - intros tok post Hopt Htok.
    assert (Hj : LlmRepl.parse_jobs e (LlmRepl.options_of args) = None)
      by (rewrite Hopt, parse_jobs_value; assumption).
    unfold LlmRepl.run, LlmRepl.main. rewrite Hcmd, Hj.
    repeat split.
Qed.

(** [build --verbose --jobs] executes the build with 4 jobs, and
    [build --jobs abc] returns 1 after the error, executing nothing. *)
Lemma jobs_option_parsed_witness :
  LlmRepl.main (sample_env (exits_with 0 "")) ["llm-repl.py"; "build"; "--verbose"; "--jobs"] =
    LlmRepl.dispatch (sample_env (exits_with 0 "")) "build"
      (mkBuildConfig "Release" "clang++" "Unix Makefiles" 4 true) [] true /\
  fst (LlmRepl.run (sample_env (exits_with 0 "")) ["llm-repl.py"; "build"; "--jobs"; "abc"]
         fresh_project) = Ok 1 /\
  LlmRepl.executed
    (trace (snd (LlmRepl.run (sample_env (exits_with 0 ""))
                   ["llm-repl.py"; "build"; "--jobs"; "abc"] fresh_project))) = [].
Proof.
  split.
  - apply (jobs_option_parsed (sample_env (exits_with 0 "")) "llm-repl.py" "build"
             ["--verbose"; "--jobs"] ["--verbose"] fresh_project);
      [discriminate | reflexivity | reflexivity].
  - destruct (jobs_option_parsed (sample_env (exits_with 0 "")) "llm-repl.py" "build"
                ["--jobs"; "abc"] [] fresh_project) as [_ H];
      [discriminate | reflexivity |].
    destruct (H "abc" [] eq_refl eq_refl) as (H1 & _ & H3 & _).
    split; [exact H1 | exact H3].
Defined.

(** C10 as stated fails.  In [build --jobs 3 --jobs] the last option is
    [--jobs] with no value after it, and the build is executed with 3 jobs,
    not with the default of 4.  In [help --jobs abc] a token that is no
    integer follows [--jobs], and [main] returns 0 and prints no error. *)
Lemma jobs_first_occurrence_decides :
  let e := sample_env (exits_with 0 "") in
  last (LlmRepl.options_of ["--jobs"; "3"; "--jobs"]) "" = "--jobs" /\
  LlmRepl.executed
    (trace (snd (LlmRepl.run e ["llm-repl.py"; "build"; "--jobs"; "3"; "--jobs"]
                   fresh_project))) =
    [BuildCommand (mkBuildConfig "Release" "clang++" "Unix Makefiles" 3 false)] /\
  jobs (mkBuildConfig "Release" "clang++" "Unix Makefiles" 3 false) <> 4 /\
  LlmRepl.options_of ["--jobs"; "abc"] = ["--jobs"; "abc"] /\
  int_of_str e "abc" = None /\
  fst (LlmRepl.run e ["llm-repl.py"; "help"; "--jobs"; "abc"] fresh_project) = Ok 0 /\
  fst (LlmRepl.run e ["llm-repl.py"; "help"; "--jobs"; "abc"] fresh_project) <> Ok 1 /\
  forallb (fun text => negb (contains "[ERROR]" text))
    (printed (trace (snd (LlmRepl.run e ["llm-repl.py"; "help"; "--jobs"; "abc"]
                            fresh_project)))) = true.
Proof. cbv zeta. repeat split; try reflexivity; vm_compute; discriminate. Qed.

(** * Further properties of the scripts *)

(** ** build.py *)

Lemma cwds_app (t1 t2 : list event) : cwds (t1 ++ t2) = (cwds t1 ++ cwds t2)%list.
Proof.
  induction t1 as [|ev t1 IH]; [reflexivity|].
  destruct ev; cbn; now rewrite ?IH.
Qed.

(** X1.  When a regular file stands at the build path, [Build.main] raises
    before any subprocess is started: [rmtree] refuses the file with
    [--clean], [mkdir] refuses it without; the file system is left as it
    was. *)
Theorem build_path_is_a_file (e : env) (args : Build.Args) (fs0 : file_system) :
  fs0 (Build.build_dir e) = File ->
  fst (Build.run e args fs0) =
    Raise (Exception (if Build.clean args then "NotADirectoryError"
                      else "FileExistsError")) /\
  spawns (trace (snd (Build.run e args fs0))) = [] /\
  fs (snd (Build.run e args fs0)) = fs0.
Proof.
  build_cases e args fs0; intros Hfile; try discriminate.
  all: repeat split.
Qed.

Lemma build_path_is_a_file_witness :
  fst (Build.run (sample_env (exits_with 0 "")) build_defaults blocked_project) =
    Raise (Exception "FileExistsError") /\
  spawns (trace (snd (Build.run (sample_env (exits_with 0 "")) build_defaults
                        blocked_project))) = [] /\
  fs (snd (Build.run (sample_env (exits_with 0 "")) build_defaults blocked_project)) =
    blocked_project.
Proof.
  apply (build_path_is_a_file (sample_env (exits_with 0 "")) build_defaults
           blocked_project).
  reflexivity.
Defined.

(** X2.  [Build.run_command] has no handler.  When [cmake] cannot be
    started for the configuration, [Build.main] raises that exception with
    no further subprocess; when the configuration exits with 0 and the
    build cannot be started, it raises after these two subprocesses.  In
    both cases no exit code is returned. *)
Theorem build_tool_cannot_start (e : env) (args : Build.Args) (fs0 : file_system)
    (msg : string) :
  fs0 (Build.build_dir e) <> File ->
  (spawn e (Build.cmake_cmd e args) = Failed msg ->
   fst (Build.run e args fs0) = Raise (Exception msg) /\
   map fst (spawns (trace (snd (Build.run e args fs0)))) = [Build.cmake_cmd e args]) /\
  (forall out err,
     spawn e (Build.cmake_cmd e args) = Exited 0 out err ->
     spawn e (Build.build_cmd args) = Failed msg ->
     fst (Build.run e args fs0) = Raise (Exception msg) /\
     map fst (spawns (trace (snd (Build.run e args fs0)))) =
       [Build.cmake_cmd e args; Build.build_cmd args]).
Proof.
  build_cases e args fs0; intros Hfile; try congruence.
  all: repeat split; intros; try congruence; try discriminate.
  all: repeat match goal with
              | H : Exited _ _ _ = Exited _ _ _ |- _ => injection H as ? ? ?; subst
              | H : Failed _ = Failed _ |- _ => injection H as ?; subst
              end; try congruence; try reflexivity.
Qed.

Lemma build_tool_cannot_start_witness :
  fst (Build.run (sample_env cannot_start) build_defaults fresh_project) =
    Raise (Exception "FileNotFoundError") /\
  map fst (spawns (trace (snd (Build.run (sample_env cannot_start) build_defaults
                                 fresh_project)))) =
    [["cmake"; "-DCMAKE_BUILD_TYPE=Release"; "/proj"]].
Proof.
  apply (build_tool_cannot_start (sample_env cannot_start) build_defaults fresh_project
           "FileNotFoundError"); [discriminate | reflexivity].
Defined.

(** X3.  With [--clean] and a build directory that exists, the directory
    is removed and created again: the announcement is the first line
    printed, and CMake starts in an empty build directory. *)
Theorem clean_build_starts_empty (e : env) (args : Build.Args) (fs0 : file_system)
    (contents : list string) :
  Build.clean args = true ->
  fs0 (Build.build_dir e) = Dir contents ->
  first_cwd (trace (snd (Build.run e args fs0))) = Some (Build.build_dir e, Dir []) /\
  removed (trace (snd (Build.run e args fs0))) = [Build.build_dir e] /\
  In (Mkdir (Build.build_dir e)) (trace (snd (Build.run e args fs0))) /\
  hd_error (printed (trace (snd (Build.run e args fs0)))) =
    Some "Cleaning build directory...".
Proof.
  build_cases e args fs0; intros Hclean' Hdir; try discriminate.
  all: repeat split; cbn; auto.
Qed.

Lemma clean_build_starts_empty_witness :
  first_cwd (trace (snd (Build.run (sample_env (exits_with 0 "")) build_clean_jobs
                           built_project))) = Some ("/proj/build", Dir []) /\
  removed (trace (snd (Build.run (sample_env (exits_with 0 "")) build_clean_jobs
                         built_project))) = ["/proj/build"].
Proof.
  destruct (clean_build_starts_empty (sample_env (exits_with 0 "")) build_clean_jobs
              built_project ["llm-repl.exe"] eq_refl eq_refl) as (H1 & H2 & _).
  split; [exact H1 | exact H2].
Defined.

(** After a configuration that exits with 0 the build is started, and
    nothing else. *)
Lemma build_commands_after_configure (e : env) (args : Build.Args) (fs0 : file_system)
    (out err : string) :
  fs0 (Build.build_dir e) <> File ->
  spawn e (Build.cmake_cmd e args) = Exited 0 out err ->
  map fst (spawns (trace (snd (Build.run e args fs0)))) =
    [Build.cmake_cmd e args; Build.build_cmd args].
Proof.
  build_cases e args fs0; intros Hfile Hconf; try congruence; try discriminate.
  all: try reflexivity.
  all: injection Hconf as ? ? ?; congruence.
Qed.

(** X4.  The build subprocess after a configuration that exits with 0:
    without [--jobs] and with [--jobs 0] it is [cmake --build .]; with any
    other number [--parallel] and the number are appended, a negative
    number included. *)
Theorem build_jobs_forwarded (e : env) (args : Build.Args) (fs0 : file_system)
    (out err : string) :
  fs0 (Build.build_dir e) <> File ->
  spawn e (Build.cmake_cmd e args) = Exited 0 out err ->
  exists second,
    map fst (spawns (trace (snd (Build.run e args fs0)))) =
      [Build.cmake_cmd e args; second] /\
    (Build.jobs args = None \/ Build.jobs args = Some 0 ->
     second = ["cmake"; "--build"; "."]) /\
    (forall n, Build.jobs args = Some n -> n <> 0 ->
     second = ["cmake"; "--build"; "."; "--parallel"; str_int n]).
Proof.
  intros Hfile Hconf. exists (Build.build_cmd args).
  split; [exact (build_commands_after_configure e args fs0 out err Hfile Hconf)|].
  unfold Build.build_cmd. split.
  - intros [-> | ->]; reflexivity.
  - intros n -> Hn. destruct (Z.eqb_spec n 0); [contradiction | reflexivity].
Qed.

Lemma build_jobs_forwarded_witness :
  exists second,
    map fst (spawns (trace (snd (Build.run (sample_env (exits_with 0 ""))
                                   build_clean_jobs built_project)))) =
      [["cmake"; "-DCMAKE_BUILD_TYPE=Release"; "/proj"]; second] /\
    second = ["cmake"; "--build"; "."; "--parallel"; "8"].
Proof.
  destruct (build_jobs_forwarded (sample_env (exits_with 0 "")) build_clean_jobs
              built_project "" "") as (second & H1 & _ & H3);
    [discriminate | reflexivity |].
  exists second. split; [exact H1|]. apply (H3 8); [reflexivity | lia].
Defined.

(** X5.  [Build.main] starts at most two subprocesses, the configuration and
    then the build, and each of them in the build directory. *)
Theorem build_subprocesses (e : env) (args : Build.Args) (fs0 : file_system) :
  let t := trace (snd (Build.run e args fs0)) in
  (List.length (spawns t) <= 2)%nat /\
  map fst (spawns t) =
    firstn (List.length (spawns t)) [Build.cmake_cmd e args; Build.build_cmd args] /\
  Forall (fun cwd => cwd = Some (Build.build_dir e)) (cwds t).
Proof.
  cbv zeta. build_cases e args fs0.
  all: repeat split; cbn; auto.
Qed.

(** ** repl_runner.py *)

(** The runs of the script, by [--help-repl], the presence of the
    executable, the arguments built, and the ending of the subprocess. *)
Ltac repl_cases e args fs0 :=
  unfold ReplRunner.script, ReplRunner.main, ReplRunner.run_repl,
    ReplRunner.check_executable, bind, ret, try_except, initial_world;
  generalize (ReplRunner.repl_args e args) as forwarded; intros forwarded;
  destruct (ReplRunner.help_repl args) eqn:Hhelp;
  exec;
  destruct (node_exists (fs0 (ReplRunner.executable e))) eqn:Hexe; exec;
  try (destruct forwarded as [|flag forwarded]; exec);
  try match goal with
      | |- context [spawn e ?cmd] =>
          destruct (spawn e cmd) as [rc out err|msg|] eqn:Hrun; exec;
          [ destruct (Z.eqb_spec rc 0) as [Hrc|Hrc]; exec | | ]
      end.

(** X6.  Without [--help-repl] and without the executable, the script
    starts no subprocess, prints where the executable was expected, how to
    build it and that the execution failed, and exits with 1. *)
Theorem repl_executable_missing (e : env) (args : ReplRunner.Args) (fs0 : file_system) :
  ReplRunner.help_repl args = false ->
  node_exists (fs0 (ReplRunner.executable e)) = false ->
  fst (ReplRunner.script e args fs0) = 1 /\
  spawns (trace (snd (ReplRunner.script e args fs0))) = [] /\
  printed (trace (snd (ReplRunner.script e args fs0))) =
    [ "[ERROR] Executable not found: " ++ ReplRunner.executable e;
      "[INFO] Run 'python llm-repl.py build' to build the application first";
      nl ++ "[ERROR] REPL execution failed" ].
Proof.
  repl_cases e args fs0; intros Hh Hmissing; try discriminate.
  all: repeat split.
Qed.

Lemma repl_executable_missing_witness :
  fst (ReplRunner.script (sample_env (exits_with 0 "")) all_flags fresh_project) = 1 /\
  spawns (trace (snd (ReplRunner.script (sample_env (exits_with 0 "")) all_flags
                        fresh_project))) = [].
Proof.
  destruct (repl_executable_missing (sample_env (exits_with 0 "")) all_flags
              fresh_project eq_refl eq_refl) as (H1 & H2 & _).
  split; [exact H1 | exact H2].
Defined.

(** X7.  With [--help-repl] the value [run_repl] returns is what the script
    exits with: the executable is started with [--help] and nothing else,
    and the script exits with 1 when that run exits with 0 and with 0 when
    it exits with another code; without the executable the script exits
    with 0 and starts nothing. *)
Theorem help_repl_exit_status (e : env) (args : ReplRunner.Args) (fs0 : file_system) :
  ReplRunner.help_repl args = true ->
  (node_exists (fs0 (ReplRunner.executable e)) = true ->
   forall rc out err,
     spawn e [ReplRunner.executable e; "--help"] = Exited rc out err ->
     fst (ReplRunner.script e args fs0) = (if rc =? 0 then 1 else 0) /\
     map fst (spawns (trace (snd (ReplRunner.script e args fs0)))) =
       [[ReplRunner.executable e; "--help"]]) /\
  (node_exists (fs0 (ReplRunner.executable e)) = false ->
   fst (ReplRunner.script e args fs0) = 0 /\
   spawns (trace (snd (ReplRunner.script e args fs0))) = []).
Proof.
  repl_cases e args fs0; intros Hh; try discriminate.
  all: repeat split; intros; try discriminate; try reflexivity.
  all: match goal with
       | H : Exited _ _ _ = Exited _ _ _ |- _ => injection H as ? ? ?; subst
       | H : _ = Exited _ _ _ |- _ => try discriminate H
       end.
  all: try reflexivity.
  all: destruct (Z.eqb_spec rc0 0); congruence.
Qed.

Lemma help_repl_exit_status_witness :
  fst (ReplRunner.script (sample_env (exits_with 0 "")) help_flags built_project) = 1 /\
  map fst (spawns (trace (snd (ReplRunner.script (sample_env (exits_with 0 ""))
                                 help_flags built_project)))) =
    [["/proj/build/llm-repl.exe"; "--help"]].
Proof.
  destruct (help_repl_exit_status (sample_env (exits_with 0 "")) help_flags
              built_project eq_refl) as [H _].
  apply (H eq_refl 0 "" ""). reflexivity.
Defined.

(** X8.  Without [--help-repl] and with the executable there: a run that is
    interrupted from the keyboard counts as a success, the script says so
    and exits with 0; a run that cannot be started is reported with its
    exception, then as a failed execution, and the script exits with 1. *)
Theorem repl_run_does_not_end (e : env) (args : ReplRunner.Args) (fs0 : file_system) :
  ReplRunner.help_repl args = false ->
  node_exists (fs0 (ReplRunner.executable e)) = true ->
  (spawn e (ReplRunner.executable e :: ReplRunner.repl_args e args) = Interrupted ->
   fst (ReplRunner.script e args fs0) = 0 /\
   last (printed (trace (snd (ReplRunner.script e args fs0)))) "" =
     nl ++ "[STOP] REPL interrupted by user") /\
  (forall msg,
     spawn e (ReplRunner.executable e :: ReplRunner.repl_args e args) = Failed msg ->
     fst (ReplRunner.script e args fs0) = 1 /\
     exists before,
       printed (trace (snd (ReplRunner.script e args fs0))) =
         (before ++
          [ ("[ERROR] Error running REPL: " ++ str_exn e (Exception msg))%string;
            (nl ++ "[ERROR] REPL execution failed")%string ])%list).
Proof.
  repl_cases e args fs0; intros Hh Hpresent; try discriminate.
  all: repeat split; intros; try discriminate; try reflexivity.
  all: match goal with
       | H : Failed _ = Failed _ |- _ => injection H as ?; subst
       end.
  all: first [ refine (ex_intro _ [_; _; _] eq_refl)
             | refine (ex_intro _ [_; _; _; _] eq_refl) ].
Qed.

Lemma repl_run_does_not_end_witness :
  fst (ReplRunner.script (sample_env interrupted) all_flags built_project) = 0 /\
  fst (ReplRunner.script (sample_env cannot_start) all_flags built_project) = 1.
Proof.
  split.
  - destruct (repl_run_does_not_end (sample_env interrupted) all_flags built_project
                eq_refl eq_refl) as [H _].
    apply H. reflexivity.
  - destruct (repl_run_does_not_end (sample_env cannot_start) all_flags built_project
                eq_refl eq_refl) as [_ H].
    apply (H "FileNotFoundError"). reflexivity.
Defined.

(** X9.  Once [argparse] has accepted the command line, [ReplRunner.main]
    returns a value whatever the flags, the file system and the ending of
    the subprocess are (an exit code, a failed start, an interruption while
    it runs), and the script exits with 0 or with 1.  A command line that
    [argparse] rejects ends the process with 2 before that and is no such
    run. *)
Theorem repl_script_exit_codes (e : env) (args : ReplRunner.Args) (fs0 : file_system) :
  (exists v w, ReplRunner.main e args (initial_world fs0) = (Ok v, w)) /\
  (fst (ReplRunner.script e args fs0) = 0 \/ fst (ReplRunner.script e args fs0) = 1).
Proof.
  split.
  - unfold ReplRunner.main, ReplRunner.run_repl, ReplRunner.check_executable,
      bind, ret, try_except, initial_world.
    generalize (ReplRunner.repl_args e args) as forwarded; intros forwarded.
    destruct (ReplRunner.help_repl args); exec;
      destruct (node_exists (fs0 (ReplRunner.executable e))); exec;
      try (destruct forwarded as [|flag forwarded]; exec);
      try match goal with
          | |- context [spawn e ?cmd] =>
              destruct (spawn e cmd) as [rc out err|msg|]; exec;
              [ destruct (Z.eqb_spec rc 0); exec | | ]
          end;
      eauto.
  - repl_cases e args fs0; auto.
Qed.



(** ** validate.py *)

Section ValidateRuns.

Import Validate.

Variable e : env.

(** A step whose subprocess does not run to an exit code: the exception
    that leaves the loop, and the one subprocess that was tried. *)
Lemma run_step_aborted (step_name : string) (command : list string) (w : world) :
  exited (spawn e command) = false ->
  exists ex w' t,
    run_step e step_name command w = (Raise ex, w') /\
    trace w' = (trace w ++ t)%list /\
    spawns t = [(command, spawn e command)] /\
    (forall msg, spawn e command = Failed msg -> ex = Exception msg) /\
    (spawn e command = Interrupted -> ex = KeyboardInterrupt).
Proof.
  intros Hex.
  unfold run_step, bind, ret, try_except. exec.
  destruct (spawn e command) as [rc out err|msg|]; [discriminate| |]; exec;
    rewrite <- !app_assoc; cbn [app];
    (do 3 eexists; split; [reflexivity|]; split; [reflexivity|];
     split; [reflexivity|]; split; intros; congruence).
Qed.

(** The loop stops at the first step whose subprocess does not run to an
    exit code. *)
Lemma run_steps_aborted (pre post : list (string * list string))
    (s : string * list string) :
  all_exit e pre = true ->
  exited (spawn e (snd s)) = false ->
  forall results w,
  exists ex w' t,
    run_steps e (pre ++ s :: post) results w = (Raise ex, w') /\
    trace w' = (trace w ++ t)%list /\
    spawns t =
      map (fun s : string * list string => (snd s, spawn e (snd s))) (pre ++ [s]) /\
    (forall msg, spawn e (snd s) = Failed msg -> ex = Exception msg) /\
    (spawn e (snd s) = Interrupted -> ex = KeyboardInterrupt).
Proof.
  unfold all_exit. intros Hpre Hs.
  induction pre as [|[step_name command] pre IH]; intros results w.
  - destruct s as [step_name command]. cbn [app run_steps snd] in *. unfold bind.
    destruct (run_step_aborted step_name command w Hs)
      as (ex & w' & t & Hstep & Ht & Hsp & Hf & Hi).
    rewrite Hstep. exists ex, w', t. cbn [map snd]. auto.
  - cbn [forallb snd] in Hpre. apply andb_true_iff in Hpre as [Hhd Hpre].
    destruct (spawn e command) as [rc out err| |] eqn:Hrun; try discriminate.
    destruct (run_step_exited e step_name command w rc out err Hrun)
      as (d & w1 & t1 & Hstep & Ht1 & Hs1).
    destruct (IH Hpre (results ++ [(step_name, rc =? 0, d)])%list w1)
      as (ex & w2 & t2 & Hsteps & Ht2 & Hs2 & Hf & Hi).
    exists ex, w2, (t1 ++ t2)%list.
    cbn [app run_steps]. unfold bind. rewrite Hstep. cbv beta iota.
    split; [exact Hsteps|]. split; [rewrite Ht2, Ht1; now rewrite app_assoc|].
    split; [|auto].
    rewrite spawns_app, Hs1, Hs2. cbn [map snd app]. now rewrite Hrun.
Qed.

(** [run_validation] when the loop stops that way. *)
Lemma run_validation_aborted (fs0 : file_system)
    (pre post : list (string * list string)) (s : string * list string) :
  validation_steps = (pre ++ s :: post)%list ->
  all_exit e pre = true ->
  exited (spawn e (snd s)) = false ->
  exists ex w',
    run_validation e (initial_world fs0) = (Raise ex, w') /\
    spawns (trace w') =
      map (fun s : string * list string => (snd s, spawn e (snd s))) (pre ++ [s]) /\
    (forall msg, spawn e (snd s) = Failed msg -> ex = Exception msg) /\
    (spawn e (snd s) = Interrupted -> ex = KeyboardInterrupt).
Proof.
  intros Hsteps Hpre Hs. unfold run_validation. rewrite Hsteps.
  unfold bind, initial_world. exec.
  match goal with
  | |- context [run_steps e (pre ++ s :: post)%list [] ?w0] =>
      destruct (run_steps_aborted pre post s Hpre Hs [] w0)
        as (ex & w' & t & Hrun & Ht & Hsp & Hf & Hi)
  end.
  rewrite Hrun. exists ex, w'. split; [reflexivity|]. split; [|auto].
  rewrite Ht, spawns_app. cbn [trace spawns app]. exact Hsp.
Qed.

Lemma passed_count (steps : list (string * list string)) (ds : list float) :
  List.length ds = List.length steps ->
  List.length
    (filter (fun r : step_result => snd (fst r))
       (map (fun sd : string * list string * float =>
               (fst (fst sd), succeeded (spawn e (snd (fst sd))), snd sd))
            (combine steps ds))) =
  List.length
    (filter (fun s : string * list string => succeeded (spawn e (snd s))) steps).
Proof.
  revert ds. induction steps as [|s rest IH]; intros [|d ds] Hlen; try discriminate;
    [reflexivity|].
  cbn [combine map filter fst snd].
  destruct (succeeded (spawn e (snd s))); cbn [List.length];
    now rewrite IH by (cbn in Hlen; lia).
Qed.

Lemma total_count (steps : list (string * list string)) (ds : list float) :
  List.length ds = List.length steps ->
  @List.length step_result
    (@map (string * list string * float) step_result
       (fun sd : string * list string * float =>
          (fst (fst sd), succeeded (spawn e (snd (fst sd))), snd sd))
       (combine steps ds)) = List.length steps.
Proof. intros Hlen. rewrite length_map, length_combine, Hlen. apply Nat.min_id. Qed.

Lemma report_tail {A : Type} (a b c d : A) (l1 l2 : list A) :
  (((((a :: l1) ++ [b]) ++ l2) ++ [c]) ++ [d] = (a :: l1 ++ b :: l2) ++ [c; d])%list.
Proof. cbn [app]. now rewrite <- !app_assoc. Qed.

(** The last two things [run_validation] prints when every subprocess runs
    to an exit code. *)
Lemma run_validation_summary (fs0 : file_system) :
  all_exit e validation_steps = true ->
  exists before total_duration,
    printed (trace (snd (run e fs0))) =
      (before ++
       [ overall_text e (all_succeed e validation_steps)
           (List.length
              (filter (fun s : string * list string => succeeded (spawn e (snd s)))
                 validation_steps))
           (List.length validation_steps) total_duration;
         if all_succeed e validation_steps
         then congratulations_text else incomplete_text ])%list.
Proof.
  unfold run, run_validation. generalize validation_steps as steps.
  intros steps Hall. unfold bind, initial_world. exec.
  match goal with
  | |- context [run_steps e steps [] ?w0] =>
      destruct (run_steps_exited e steps Hall [] w0)
        as (ds & w1 & t & Hsteps & Hlen & Ht & Hsp)
  end.
  rewrite Hsteps. exec. rewrite print_lines_trace. exec.
  match goal with
  | |- context [filter _ ?rs] =>
      pose proof (count_passed_all rs) as Hc; unfold count_passed in Hc
  end.
  rewrite !Hc, !(forallb_results e steps ds Hlen), !(passed_count steps ds Hlen).
  match goal with
  | |- context [overall_text e _ _ ?total _] =>
      replace total with (List.length steps) by (symmetry; now apply total_count)
  end.
  rewrite Ht.
  destruct (all_succeed e steps); exec;
    rewrite !printed_app, printed_outs; cbn [printed];
    do 2 eexists; apply report_tail.
Qed.

End ValidateRuns.

(** X11.  The [validate.py] process exits with 0 when the subprocesses of
    all seven steps exit with 0, and with 1 in every other run, also when a
    subprocess cannot be started or the run is interrupted. *)
Theorem validate_script_exit_code (e : env) (fs0 : file_system) :
  fst (Validate.script e fs0) =
    if Validate.all_succeed e Validate.validation_steps then 0 else 1.
Proof.
  unfold Validate.script.
  destruct (Validate.all_exit e Validate.validation_steps) eqn:Hall.
  - destruct (run_validation_exited e fs0 Hall) as (ds & pr & ov & cl & _ & Hr & _).
    unfold Validate.run in Hr.
    destruct (Validate.run_validation e (initial_world fs0)) as [[rc|ex] w];
      cbn [fst] in Hr; [|discriminate].
    injection Hr as ->. reflexivity.
  - destruct (run_validation_not_exited e fs0 Hall) as (ex & w' & Hr).
    unfold Validate.run in Hr. rewrite Hr.
    destruct (Validate.all_succeed e Validate.validation_steps) eqn:Hs.
    + apply all_succeed_exit in Hs. congruence.
    + now destruct ex.
Qed.

(** X12.  When the subprocess of a step cannot be started or is interrupted,
    after steps that all ran to an exit code, [run_validation] raises the
    exception of that subprocess: the steps up to that one were started, no
    later step is, and the process exits with 1. *)
Theorem validation_stops_at_unstartable_step (e : env) (fs0 : file_system)
    (pre post : list (string * list string)) (s : string * list string) :
  Validate.validation_steps = (pre ++ s :: post)%list ->
  Validate.all_exit e pre = true ->
  exited (spawn e (snd s)) = false ->
  (exists ex,
     fst (Validate.run e fs0) = Raise ex /\
     (forall msg, spawn e (snd s) = Failed msg -> ex = Exception msg) /\
     (spawn e (snd s) = Interrupted -> ex = KeyboardInterrupt)) /\
  spawns (trace (snd (Validate.run e fs0))) =
    map (fun s : string * list string => (snd s, spawn e (snd s))) (pre ++ [s]) /\
  fst (Validate.script e fs0) = 1.
Proof.
  intros Hsteps Hpre Hs.
  destruct (run_validation_aborted e fs0 pre post s Hsteps Hpre Hs)
    as (ex & w' & Hrun & Hsp & Hf & Hi).
  unfold Validate.run, Validate.script. rewrite Hrun. cbn [fst snd].
  split; [exists ex; auto|]. split; [exact Hsp|]. now destruct ex.
Qed.

(** The test step cannot be started: the first four steps are tried, the
    last three are not, and the process exits with 1. *)
Lemma validation_stops_at_unstartable_step_witness :
  spawns (trace (snd (Validate.run (sample_env (missing_tool "test")) fresh_project))) =
    [ (["python"; "llm-repl.py"; "status"], Exited 0 "" "");
      (["python"; "llm-repl.py"; "clean"], Exited 0 "" "");
      (["python"; "llm-repl.py"; "build"; "--release"], Exited 0 "" "");
      (["python"; "llm-repl.py"; "test"], Failed "FileNotFoundError") ] /\
  fst (Validate.script (sample_env (missing_tool "test")) fresh_project) = 1.
Proof.
  apply (validation_stops_at_unstartable_step (sample_env (missing_tool "test"))
           fresh_project
           [ ("Project Status Check", ["python"; "llm-repl.py"; "status"]);
             ("Clean Build Environment", ["python"; "llm-repl.py"; "clean"]);
             ("Full Release Build", ["python"; "llm-repl.py"; "build"; "--release"]) ]
           [ ("Code Formatting Check", ["python"; "llm-repl.py"; "format"]);
             ("Application Version Test",
              ["python"; "llm-repl.py"; "run"; "--"; "--version"]);
             ("Application Help Test", ["python"; "llm-repl.py"; "run"; "--"; "--help"]) ]
           ("Comprehensive Testing", ["python"; "llm-repl.py"; "test"]));
    reflexivity.
Defined.

(** X13.  When every subprocess runs to an exit code, the last two things
    [run_validation] prints are the overall result, which counts the steps
    that exited with 0 out of 7 and reads SUCCESS exactly when all did, and
    the congratulations when all did, the notice of an incomplete
    validation otherwise. *)
Theorem validation_summary_counts (e : env) (fs0 : file_system) :
  Validate.all_exit e Validate.validation_steps = true ->
  exists before total_duration,
    printed (trace (snd (Validate.run e fs0))) =
      (before ++
       [ Validate.overall_text e
           (Validate.all_succeed e Validate.validation_steps)
           (List.length
              (filter (fun s : string * list string => succeeded (spawn e (snd s)))
                 Validate.validation_steps))
           7 total_duration;
         if Validate.all_succeed e Validate.validation_steps
         then Validate.congratulations_text else Validate.incomplete_text ])%list.
Proof. exact (run_validation_summary e fs0). Qed.

Lemma validation_summary_counts_witness :
  exists before total_duration,
    printed (trace (snd (Validate.run (sample_env (fails_on "run" 3)) fresh_project))) =
      (before ++
       [ Validate.overall_text (sample_env (fails_on "run" 3)) false 5 7 total_duration;
         Validate.incomplete_text ])%list.
Proof.
  apply (validation_summary_counts (sample_env (fails_on "run" 3)) fresh_project).
  reflexivity.
Defined.

(** ** llm-repl.py: [main] *)

Lemma lower_ascii_idem (c : ascii) : lower_ascii (lower_ascii c) = lower_ascii c.
Proof. destruct c as [[] [] [] [] [] [] [] []]; reflexivity. Qed.

Lemma lower_idem (s : string) : lower (lower s) = lower s.
Proof.
  induction s as [|c s IH]; [reflexivity|].
  cbn [lower]. now rewrite lower_ascii_idem, IH.
Qed.

(** One step of [LlmRepl.main]: the monad, the logger and the help text. *)
Ltac main_step :=
  unfold LlmRepl.run, LlmRepl.main, LlmRepl.dispatch, LlmRepl.run_execute,
    LlmRepl.show_help, LlmRepl.Logger.banner, LlmRepl.Logger.error,
    LlmRepl.Logger.info, bind, ret, raise, try_except, initial_world in *;
  exec.

(** X14.  Called without a command, or with the command [help] in any
    letter case, [LlmRepl.main] prints the help text, returns 0 and
    executes nothing, whatever else stands on the command line. *)
Theorem main_shows_help (e : env) (argv : list string) (fs0 : file_system) :
  (List.length argv < 2)%nat \/
  (exists script command args, argv = script :: command :: args /\ lower command = "help") ->
  LlmRepl.run e argv fs0 = (Ok 0, snd (LlmRepl.show_help (initial_world fs0))) /\
  LlmRepl.executed (trace (snd (LlmRepl.run e argv fs0))) = [] /\
  spawns (trace (snd (LlmRepl.run e argv fs0))) = [] /\
  List.length (printed (trace (snd (LlmRepl.run e argv fs0)))) = 2%nat.
Proof.
  intros [Hlen | (script & command & args & -> & Hhelp)].
  - destruct argv as [|a [|b l]]; cbn in Hlen; try lia; main_step; repeat split.
  - unfold LlmRepl.run, LlmRepl.main. rewrite Hhelp. main_step. repeat split.
Qed.

Lemma main_shows_help_witness :
  LlmRepl.run (sample_env (exits_with 0 "")) ["llm-repl.py"; "HELP"; "--jobs"; "abc"]
    fresh_project =
  (Ok 0, snd (LlmRepl.show_help (initial_world fresh_project))).
Proof.
  apply (main_shows_help (sample_env (exits_with 0 ""))
           ["llm-repl.py"; "HELP"; "--jobs"; "abc"] fresh_project).
  right. exists "llm-repl.py", "HELP", ["--jobs"; "abc"]. split; reflexivity.
Defined.

(** The command is read without regard to letter case: a command
    line and the same command line with the command in lower case are the
    same run. *)
Lemma command_case_ignored (e : env) (script command : string) (args : list string) :
  LlmRepl.main e (script :: command :: args) =
  LlmRepl.main e (script :: lower command :: args).
Proof. unfold LlmRepl.main. now rewrite lower_idem. Qed.

(** X15.  A command written in ASCII characters that is none of the
    seven, on a command line whose [--jobs] is in order, executes nothing:
    [LlmRepl.main] names the command, in lower case, as unknown, prints the
    help text and returns 1. *)
Theorem unknown_command_rejected (e : env) (script command : string)
    (args : list string) (jobs : Z) (fs0 : file_system) :
  is_ascii command = true ->
  ~ In (lower command) ["help"; "status"; "clean"; "build"; "run"; "test"; "format"] ->
  LlmRepl.parse_jobs e (LlmRepl.options_of args) = Some jobs ->
  fst (LlmRepl.run e (script :: command :: args) fs0) = Ok 1 /\
  LlmRepl.executed (trace (snd (LlmRepl.run e (script :: command :: args) fs0))) = [] /\
  spawns (trace (snd (LlmRepl.run e (script :: command :: args) fs0))) = [] /\
  written_to_stderr (trace (snd (LlmRepl.run e (script :: command :: args) fs0))) = [] /\
  printed (trace (snd (LlmRepl.run e (script :: command :: args) fs0))) =
    (LlmRepl.Colors.RED ++ "[ERROR] Unknown command: " ++ lower command ++
       LlmRepl.Colors.END)%string ::
    printed (trace (snd (LlmRepl.show_help (initial_world fs0)))).
Proof.
  intros _ Hnot Hjobs.
  assert (Hne : forall name,
            In name ["help"; "status"; "clean"; "build"; "run"; "test"; "format"] ->
            String.eqb (lower command) name = false).
  { intros name Hin. apply String.eqb_neq. intros Heq. apply Hnot. now rewrite Heq. }
  unfold LlmRepl.run, LlmRepl.main. rewrite Hjobs.
  rewrite (Hne "help") by (cbn; tauto).
  unfold LlmRepl.dispatch.
  rewrite (Hne "status"), (Hne "clean"), (Hne "build"), (Hne "run"), (Hne "test"),
    (Hne "format") by (cbn; tauto).
  main_step. repeat split.
Qed.

Lemma unknown_command_rejected_witness :
  fst (LlmRepl.run (sample_env (exits_with 0 "")) ["llm-repl.py"; "Deploy"; "--verbose"]
         fresh_project) = Ok 1 /\
  LlmRepl.executed
    (trace (snd (LlmRepl.run (sample_env (exits_with 0 ""))
                   ["llm-repl.py"; "Deploy"; "--verbose"] fresh_project))) = [].
Proof.
  destruct (unknown_command_rejected (sample_env (exits_with 0 "")) "llm-repl.py"
              "Deploy" ["--verbose"] 4 fresh_project) as (H1 & H2 & _).
  - reflexivity.
  - cbn. intros H. repeat (destruct H as [H|H]; [discriminate H|]). exact H.
  - reflexivity.
  - split; [exact H1 | exact H2].
Defined.

(** X16.  [LlmRepl.main] never raises: on every command line, in every
    world, it returns 0 or 1, also when the command object raises or the
    run is interrupted. *)
Theorem main_returns_0_or_1 (e : env) (argv : list string) (w : world) :
  exists rc w', LlmRepl.main e argv w = (Ok rc, w') /\ (rc = 0 \/ rc = 1).
Proof.
  destruct argv as [|script [|command args]]; [main_step; eauto | main_step; eauto |].
  unfold LlmRepl.main.
  destruct (String.eqb (lower command) "help"); [main_step; eauto|].
  destruct (LlmRepl.parse_jobs e (LlmRepl.options_of args)); [|main_step; eauto].
  unfold LlmRepl.dispatch.
  repeat match goal with
         | |- context [String.eqb (lower command) ?name] =>
             destruct (String.eqb (lower command) name)
         end;
    main_step;
    try match goal with
        | |- context [execute e ?inv] => destruct (execute e inv) as [[]|[]]; main_step
        end;
    repeat match goal with
           | |- context [if ?b then _ else _] => destruct b; main_step
           end;
    eauto.
Qed.

Lemma options_before_separator (opts app : list string) :
  mem "--" opts = false ->
  LlmRepl.options_of (opts ++ "--" :: app) = opts /\
  LlmRepl.app_args_of (opts ++ "--" :: app) = app.
Proof.
  intros Hopts. unfold LlmRepl.options_of, LlmRepl.app_args_of.
  rewrite (index_of_first _ _ _ Hopts). split.
  - rewrite firstn_app, Nat.sub_diag, firstn_all. cbn. apply app_nil_r.
  - rewrite skipn_app, skipn_all2 by lia.
    now replace (List.length opts + 1 - List.length opts)%nat with 1%nat by lia.
Qed.

Lemma options_without_separator (args : list string) :
  mem "--" args = false ->
  LlmRepl.options_of args = args /\ LlmRepl.app_args_of args = [].
Proof.
  intros Hargs. unfold LlmRepl.options_of, LlmRepl.app_args_of.
  assert (Hnone : index_of "--" args = None).
  { induction args as [|a args IH]; [reflexivity|]. cbn in *.
    destruct (String.eqb a "--"); [discriminate|]. now rewrite IH. }
  now rewrite Hnone.
Qed.

(** X17.  The command line is cut at the first [--].  What follows it is
    never read as an option: the command [run] hands it to the application
    as it stands, and for every other command the command line is the same
    run as the one cut before the [--]. *)
Theorem separator_cuts_command_line (e : env) (script command : string)
    (opts app : list string) (fs0 : file_system) :
  mem "--" opts = false ->
  (forall jobs,
     lower command = "run" ->
     LlmRepl.parse_jobs e opts = Some jobs ->
     LlmRepl.executed
       (trace (snd (LlmRepl.run e (script :: command :: opts ++ "--" :: app) fs0))) =
       [RunCommand app]) /\
  (lower command <> "run" ->
   LlmRepl.main e (script :: command :: opts ++ "--" :: app) =
   LlmRepl.main e (script :: command :: opts)).
Proof.
  intros Hopts.
  destruct (options_before_separator opts app Hopts) as [Ho Ha].
  destruct (options_without_separator opts Hopts) as [Ho' Ha'].
  split.
  - intros jobs Hrun Hjobs. unfold LlmRepl.run, LlmRepl.main.
    rewrite Ho, Ha, Hjobs, Hrun. main_step.
    destruct (execute e (RunCommand app)) as [[]|[]]; main_step;
      repeat match goal with
             | |- context [if ?b then _ else _] => destruct b; main_step
             end;
      reflexivity.
  - intros Hcmd. apply String.eqb_neq in Hcmd. unfold LlmRepl.main.
    rewrite Ho, Ha, Ho', Ha'.
    destruct (String.eqb (lower command) "help"); [reflexivity|].
    destruct (LlmRepl.parse_jobs e opts); [|reflexivity].
    unfold LlmRepl.dispatch. now rewrite Hcmd.
Qed.

Lemma separator_cuts_command_line_witness :
  LlmRepl.executed
    (trace (snd (LlmRepl.run (sample_env (exits_with 0 ""))
                   ["llm-repl.py"; "run"; "--verbose"; "--"; "--jobs"; "abc"; "--"; "x"]
                   fresh_project))) =
    [RunCommand ["--jobs"; "abc"; "--"; "x"]].
Proof.
  destruct (separator_cuts_command_line (sample_env (exits_with 0 "")) "llm-repl.py"
              "run" ["--verbose"] ["--jobs"; "abc"; "--"; "x"] fresh_project eq_refl)
    as [H _].
  apply (H 4); reflexivity.
Defined.

(** X18.  For each of the six commands, on a command line whose [--jobs]
    is in order, [LlmRepl.main] executes exactly the command object of that
    name: the build with the configuration read from the options (Debug
    exactly when [--debug] is given, the number of jobs, the verbosity), the
    run with the application arguments.  It returns 0 exactly when
    [execute] returns true, and 1 otherwise.  It prints nothing of its own
    unless [execute] raises; then an interruption is noted, and every other
    exception is reported in one printed line, and its traceback is written
    to the standard error stream exactly when [--verbose] is given. *)
Theorem command_executed (e : env) (script command : string) (args : list string)
    (fs0 : file_system) (name : string)
    (mk : BuildConfig -> list string -> invocation) (jobs : Z) :
  In (name, mk) LlmRepl.command_table ->
  lower command = name ->
  LlmRepl.parse_jobs e (LlmRepl.options_of args) = Some jobs ->
  let opts := LlmRepl.options_of args in
  let inv :=
    mk (mkBuildConfig (if mem "--debug" opts then "Debug" else "Release")
          "clang++" "Unix Makefiles" jobs (mem "--verbose" opts))
       (LlmRepl.app_args_of args) in
  let r := LlmRepl.run e (script :: command :: args) fs0 in
  LlmRepl.executed (trace (snd r)) = [inv] /\
  fst r = Ok match execute e inv with
             | Ok true => 0
             | _ => 1
             end /\
  printed (trace (snd r)) =
    match execute e inv with
    | Ok _ => []
    | Raise KeyboardInterrupt =>
        [(LlmRepl.Colors.CYAN ++ "[INFO] Operation interrupted by user" ++
            LlmRepl.Colors.END)%string]
    | Raise ex =>
        [(LlmRepl.Colors.RED ++ "[ERROR] Script execution failed: " ++ str_exn e ex ++
            LlmRepl.Colors.END)%string]
    end /\
  written_to_stderr (trace (snd r)) =
    match execute e inv with
    | Ok _ | Raise KeyboardInterrupt => []
    | Raise ex => if mem "--verbose" opts then [format_exc e ex] else []
    end.
Proof.
  intros Hin Hname Hjobs. cbv zeta.
  unfold LlmRepl.run, LlmRepl.main. rewrite Hjobs, Hname.
  cbn in Hin.
  repeat (destruct Hin as [Hin|Hin];
          [ injection Hin as <- <-; main_step;
            match goal with
            | |- context [execute e ?inv] => destruct (execute e inv) as [[]|[]]; main_step
            end;
            repeat match goal with
                   | |- context [if ?b then _ else _] => destruct b; main_step
                   end;
            repeat split
          | ]).
  contradiction.
Qed.

Lemma command_executed_witness :
  LlmRepl.executed
    (trace (snd (LlmRepl.run (sample_env_executing (fun _ => Raise (Exception "boom")))
                   ["llm-repl.py"; "Build"; "--debug"; "--verbose"; "--jobs"; "2"]
                   fresh_project))) =
    [BuildCommand (mkBuildConfig "Debug" "clang++" "Unix Makefiles" 2 true)] /\
  fst (LlmRepl.run (sample_env_executing (fun _ => Raise (Exception "boom")))
         ["llm-repl.py"; "Build"; "--debug"; "--verbose"; "--jobs"; "2"]
         fresh_project) = Ok 1 /\
  written_to_stderr
    (trace (snd (LlmRepl.run (sample_env_executing (fun _ => Raise (Exception "boom")))
                   ["llm-repl.py"; "Build"; "--debug"; "--verbose"; "--jobs"; "2"]
                   fresh_project))) = ["Traceback"].
Proof.
  destruct (command_executed (sample_env_executing (fun _ => Raise (Exception "boom")))
              "llm-repl.py" "Build" ["--debug"; "--verbose"; "--jobs"; "2"]
              fresh_project "build" (fun config _ => BuildCommand config) 2)
    as (H1 & H2 & _ & H4).
  - cbn. tauto.
  - reflexivity.
  - reflexivity.
  - split; [exact H1 | split; [exact H2 | exact H4]].
Defined.

(** ** llm-repl.py: [ProjectManager.run_command] and the tests *)

(** X19.  [LlmRepl.run_command] starts the command in the directory given,
    or in the project root when none is given.  A process that exits with 0,
    or with any code when [check] is off, is returned as it is and nothing
    is printed.  With [check] on and another exit code, the
    [CalledProcessError] is raised again after the failed command line has
    been printed, followed by the captured output and the captured errors,
    each only when it is not empty; without [capture_output] nothing is
    printed. *)
Theorem run_command_outcomes (e : env) (cmd : list string) (cwd : option string)
    (capture check : bool) (fs0 : file_system) :
  let r := LlmRepl.run_command e cmd cwd capture check (initial_world fs0) in
  let kept (text : string) := if capture then text else "" in
  cwds (trace (snd r)) =
    [Some match cwd with Some d => d | None => project_root e end] /\
  (forall rc out err,
     spawn e cmd = Exited rc out err ->
     check = false \/ rc = 0 ->
     fst r = Ok (mkCompleted rc (kept out) (kept err)) /\
     printed (trace (snd r)) = []) /\
  (forall rc out err,
     spawn e cmd = Exited rc out err ->
     check = true ->
     rc <> 0 ->
     fst r = Raise (CalledProcessError cmd rc (kept out) (kept err)) /\
     printed (trace (snd r)) =
       if capture then
         ((LlmRepl.Colors.RED ++ "[ERROR] " ++ ("Command failed: " ++ join " " cmd) ++
             LlmRepl.Colors.END)%string ::
          (if String.eqb out "" then [] else [("STDOUT: " ++ out)%string]) ++
          (if String.eqb err "" then [] else [("STDERR: " ++ err)%string]))%list
       else []).
Proof.
  cbv zeta.
  unfold LlmRepl.run_command, LlmRepl.Logger.error, bind, ret, raise, try_except,
    initial_world.
  exec.
  destruct (spawn e cmd) as [rc out err|msg|] eqn:Hrun; exec.
  - destruct (Z.eqb_spec rc 0) as [Hrc|Hrc]; destruct check, capture; exec;
      (split;
       [ repeat match goal with
                | |- context [String.eqb ?s ""] => destruct (String.eqb s ""); exec
                end;
         now destruct cwd |]);
      (split; intros rc' out' err' Heq; injection Heq as <- <- <-; intros;
       try congruence; try discriminate;
       try match goal with H : _ \/ _ |- _ => destruct H; try congruence end;
       repeat match goal with
              | |- context [String.eqb ?s ""] => destruct (String.eqb s ""); exec
              end;
       try (split; reflexivity)).
  - split; [now destruct cwd|]. split; intros; discriminate.
  - split; [now destruct cwd|]. split; intros; discriminate.
Qed.

Lemma run_command_outcomes_witness :
  fst (LlmRepl.run_command (sample_env (exits_with 2 "oops")) ["make"] None true true
         (initial_world fresh_project)) =
    Raise (CalledProcessError ["make"] 2 "oops" "") /\
  printed (trace (snd (LlmRepl.run_command (sample_env (exits_with 2 "oops")) ["make"]
                         None true true (initial_world fresh_project)))) =
    [ (LlmRepl.Colors.RED ++ "[ERROR] " ++ ("Command failed: " ++ join " " ["make"]) ++
         LlmRepl.Colors.END)%string;
      "STDOUT: oops" ].
Proof.
  destruct (run_command_outcomes (sample_env (exits_with 2 "oops")) ["make"] None true
              true fresh_project) as (_ & _ & H).
  apply (H 2 "oops" ""); [reflexivity | reflexivity | lia].
Defined.


(** ** llm-repl.py: [RunCommand.execute] *)

Ltac run_cases e fs0 :=
  unfold LlmRepl.RunCommand.execute, LlmRepl.run_command, LlmRepl.Logger.error,
    LlmRepl.Logger.info, LlmRepl.Logger.header, LlmRepl.Logger.success,
    LlmRepl.Logger.warning, bind, ret, raise, try_except, initial_world;
  exec;
  destruct (node_exists (fs0 (LlmRepl.exe_path e))) eqn:Hexe; exec.

(** X21.  Without the executable [RunCommand.execute] returns false and
    starts nothing.  With it, the application is started once, in the
    project root, with the arguments given or with [--help] when there are
    none, and the result is true whatever the exit code is and also when
    the run is interrupted; it is false only when the application cannot be
    started.  No exception leaves the function. *)
Theorem run_command_verdict (e : env) (app_args : list string) (fs0 : file_system) :
  let r := LlmRepl.RunCommand.execute e app_args (initial_world fs0) in
  let cmd := LlmRepl.exe_path e ::
             match app_args with [] => ["--help"] | _ :: _ => app_args end in
  (node_exists (fs0 (LlmRepl.exe_path e)) = false ->
   fst r = Ok false /\ spawns (trace (snd r)) = []) /\
  (node_exists (fs0 (LlmRepl.exe_path e)) = true ->
   fst r = Ok match spawn e cmd with Failed _ => false | _ => true end /\
   spawns (trace (snd r)) = [(cmd, spawn e cmd)] /\
   cwds (trace (snd r)) = [Some (project_root e)]).
Proof.
  cbv zeta. run_cases e fs0.
  - split; [discriminate|]. intros _.
    destruct app_args as [|a rest]; exec;
      match goal with
      | |- context [spawn e ?cmd] =>
          destruct (spawn e cmd) as [rc out err|msg|] eqn:Hrun; exec
      end;
      try (destruct (Z.eqb_spec rc 0); exec);
      repeat split; reflexivity.
  - split; [|discriminate]. intros _. split; reflexivity.
Qed.

Lemma run_command_verdict_witness :
  fst (LlmRepl.RunCommand.execute (sample_env (exits_with 3 "")) ["--model"; "llama"]
         (initial_world built_project)) = Ok true.
Proof.
  destruct (run_command_verdict (sample_env (exits_with 3 "")) ["--model"; "llama"]
              built_project) as (_ & H).
  destruct H as (H & _); [reflexivity | exact H].
Defined.



(** ** llm-repl.py: the Config File Handling test *)

Lemma skipn_length_app {A : Type} (a b : list A) : skipn (List.length a) (a ++ b) = b.
Proof. induction a as [|x a IH]; [reflexivity | exact IH]. Qed.

Lemma append_assoc (a b c : string) : ((a ++ b) ++ c)%string = (a ++ b ++ c)%string.
Proof. induction a as [|x a IH]; cbn; [reflexivity | now rewrite IH]. Qed.

Lemma eqb_append_prefix (p a b : string) :
  String.eqb (p ++ a) (p ++ b) = String.eqb a b.
Proof.
  induction p as [|x p IH]; cbn; [reflexivity|].
  now rewrite Ascii.eqb_refl.
Qed.

Lemma config_path_not_exe (e : env) :
  String.eqb (LlmRepl.exe_path e) (LlmRepl.config_path e) = false.
Proof.
  unfold LlmRepl.exe_path, LlmRepl.config_path, LlmRepl.build_dir, path_join.
  rewrite append_assoc. now rewrite eqb_append_prefix.
Qed.

Lemma config_path_not_required (e : env) (p : string) :
  In p (LlmRepl.required_files e) -> String.eqb p (LlmRepl.config_path e) = false.
Proof.
  unfold LlmRepl.required_files. cbn [In].
  intros [<-|[<-|[<-|[]]]].
  - apply config_path_not_exe.
  - unfold LlmRepl.config_path, path_join. rewrite append_assoc.
    now rewrite eqb_append_prefix.
  - unfold LlmRepl.config_path, path_join. now rewrite eqb_append_prefix.
Qed.

Lemma fs_set_other (p q : string) (n : node) (f : file_system) :
  String.eqb q p = false -> fs_set p n f q = f q.
Proof. unfold fs_set. now intros ->. Qed.

Lemma fs_set_exe (e : env) (n : node) (f : file_system) :
  fs_set (LlmRepl.config_path e) n f (LlmRepl.exe_path e) = f (LlmRepl.exe_path e).
Proof. apply fs_set_other, config_path_not_exe. Qed.

(** What [settle] leaves after a computation that started one subprocess,
    and after one that started none. *)
Ltac settled :=
  rewrite <- ?app_assoc in *; rewrite ?spawns_app in *;
  cbn [spawns app] in *; rewrite ?app_nil_r in *;
  rewrite ?skipn_length_app, ?skipn_all in *; cbn [fold_left fst snd] in *.

Ltac config_cases e w :=
  unfold LlmRepl._test_config_file, settle, LlmRepl.run_command, LlmRepl.Logger.error,
    write_file, unlink, bind, ret, raise, try_except in *;
  exec.

Ltac left_behind e eff :=
  match goal with
  | |- context [eff ?cmd ?f (LlmRepl.config_path e)] =>
      destruct (eff cmd f (LlmRepl.config_path e)) eqn:Hafter; exec;
      rewrite ?Hafter; exec; rewrite ?Hafter; try (intros Heq; discriminate Heq)
  end.

(** X23.  Whenever the Config File Handling test returns a result, no
    [test_config.yaml] is left in the project root: the file written for the
    test is removed on every path that ends in a result, and with it a file
    of that name that was there before. *)
Theorem config_test_cleans_up (e : env) (eff : effects) (w w' : world)
    (res : LlmRepl.TestResult) :
  LlmRepl._test_config_file e eff w = (Ok res, w') ->
  fs w' (LlmRepl.config_path e) = Absent.
Proof.
  config_cases e w.
  destruct (fs w (LlmRepl.config_path e)) eqn:Hcfg; exec;
    rewrite ?Hcfg; exec; rewrite ?Hcfg; try (intros Heq; discriminate Heq).
  all: rewrite ?fs_set_exe.
  all: destruct (node_exists (fs w (LlmRepl.exe_path e))) eqn:Hexe; exec.
  all: try (intros Heq; injection Heq as <- <-; cbn; now rewrite fs_set_same).
  all: destruct (spawn e _) as [rc out err|msg|] eqn:Hrun; exec;
    try (destruct (Z.eqb_spec rc 0) as [Hrc|Hrc]; exec);
    repeat match goal with
           | |- context [String.eqb ?s ""] => destruct (String.eqb s ""); exec
           end;
    settled; try (intros Heq; discriminate Heq).
  all: try (intros Heq; injection Heq as <- <-; cbn; now rewrite fs_set_same).
  all: try left_behind e eff.
  all: do 3 exec; try (intros Heq; discriminate Heq).
  all: try (intros Heq; injection Heq as <- <-; cbn; rewrite ?fs_set_same; now auto).
Qed.

Lemma config_test_cleans_up_witness :
  fs (snd (LlmRepl._test_config_file (sample_env well_behaved) no_effects
             (initial_world configured_project)))
     (LlmRepl.config_path (sample_env well_behaved)) = Absent.
Proof.
  apply (config_test_cleans_up (sample_env well_behaved) no_effects
           (initial_world configured_project) _
           match fst (LlmRepl._test_config_file (sample_env well_behaved) no_effects
                        (initial_world configured_project)) with
           | Ok res => res
           | Raise _ => LlmRepl.mkTestResult "" false "" "" fzero
           end).
  vm_compute. reflexivity.
Defined.

(** The test on a world in which no directory stands at the path of
    [test_config.yaml], with an executable that leaves that path and
    [paths] alone and is not interrupted. *)
Lemma config_test_run (e : env) (eff : effects) (paths : list string) (w : world) :
  let cmd := [LlmRepl.exe_path e; "--config"; LlmRepl.config_path e; "--help"] in
  is_dir (fs w (LlmRepl.config_path e)) = false ->
  leaves_alone eff (LlmRepl.config_path e :: paths) ->
  spawn e cmd <> Interrupted ->
  exists res w',
    LlmRepl._test_config_file e eff w = (Ok res, w') /\
    LlmRepl.passed res =
      node_exists (fs w (LlmRepl.exe_path e)) &&
      match spawn e cmd with Exited rc _ _ => rc =? 0 | _ => false end /\
    fs w' (LlmRepl.config_path e) = Absent /\
    (forall p, In p paths -> String.eqb p (LlmRepl.config_path e) = false ->
               fs w' p = fs w p) /\
    spawns (trace w') =
      (spawns (trace w) ++
       if node_exists (fs w (LlmRepl.exe_path e)) then [(cmd, spawn e cmd)] else [])%list.
Proof.
  cbv zeta. intros Hdir Halone Hrun.
  assert (Hcfg : forall c f, eff c f (LlmRepl.config_path e) = f (LlmRepl.config_path e))
    by (intros c f; apply Halone; now left).
  assert (Hpaths : forall c f p, In p paths -> eff c f p = f p)
    by (intros c f p Hp; apply Halone; now right).
  config_cases e w.
  destruct (fs w (LlmRepl.config_path e)) eqn:Hstate; try discriminate; exec.
  all: rewrite ?fs_set_exe.
  all: destruct (node_exists (fs w (LlmRepl.exe_path e))) eqn:Hexe; exec.
  all: try (do 2 eexists; split; [reflexivity|]; cbn;
            rewrite ?fs_set_same, ?app_nil_r;
            repeat split; try reflexivity;
            intros p Hp Hne; now rewrite !fs_set_other by exact Hne).
  all: destruct (spawn e _) as [rc out err|msg|] eqn:Hout; try congruence; exec;
    try (destruct (Z.eqb_spec rc 0) as [Hrc|Hrc]; exec);
    repeat match goal with
           | |- context [String.eqb ?s ""] => destruct (String.eqb s ""); exec
           end;
    settled; do 4 (rewrite ?Hcfg, ?fs_set_same; exec).
  all: do 2 eexists; split; [reflexivity|]; cbn;
    rewrite ?fs_set_same, ?spawns_app, ?app_nil_r; cbn;
    repeat split; try reflexivity;
    try (intros p Hp Hne; rewrite ?fs_set_other by exact Hne;
         rewrite ?Hpaths by exact Hp; now rewrite ?fs_set_other by exact Hne).
Qed.

(** X24.  With no directory in the way of [test_config.yaml] and an
    executable that leaves that file alone and is not interrupted, the
    Config File Handling test returns a result, and it passes exactly when
    the executable exists and exits with 0 on
    [--config <project root>/test_config.yaml --help]; what the executable
    prints is not looked at.  The executable is started once when it
    exists and not at all otherwise. *)
Theorem config_test_verdict (e : env) (eff : effects) (w : world) :
  let cmd := [LlmRepl.exe_path e; "--config"; LlmRepl.config_path e; "--help"] in
  is_dir (fs w (LlmRepl.config_path e)) = false ->
  leaves_alone eff [LlmRepl.config_path e] ->
  spawn e cmd <> Interrupted ->
  exists res w',
    LlmRepl._test_config_file e eff w = (Ok res, w') /\
    LlmRepl.passed res =
      node_exists (fs w (LlmRepl.exe_path e)) &&
      match spawn e cmd with Exited rc _ _ => rc =? 0 | _ => false end /\
    spawns (trace w') =
      (spawns (trace w) ++
       if node_exists (fs w (LlmRepl.exe_path e)) then [(cmd, spawn e cmd)] else [])%list.
Proof.
  cbv zeta. intros Hdir Halone Hrun.
  destruct (config_test_run e eff [] w Hdir Halone Hrun)
    as (res & w' & Heq & Hpassed & _ & _ & Hspawns).
  now exists res, w'.
Qed.

Lemma config_test_verdict_witness :
  exists res w',
    LlmRepl._test_config_file (sample_env (exits_with 0 "no help here")) no_effects
      (initial_world built_project) = (Ok res, w') /\
    LlmRepl.passed res = true.
Proof.
  destruct (config_test_verdict (sample_env (exits_with 0 "no help here")) no_effects
              (initial_world built_project))
    as (res & w' & Heq & Hpassed & _).
  - reflexivity.
  - intros cmd f p _. reflexivity.
  - discriminate.
  - exists res, w'. split; [exact Heq | exact Hpassed].
Defined.

(** X25.  An interruption from the keyboard while the executable runs is
    not caught by the Config File Handling test: [KeyboardInterrupt] leaves
    the function, and the [test_config.yaml] it has written stays in the
    project root. *)
Theorem config_test_interrupted (e : env) (eff : effects) (w : world) :
  let cmd := [LlmRepl.exe_path e; "--config"; LlmRepl.config_path e; "--help"] in
  is_dir (fs w (LlmRepl.config_path e)) = false ->
  node_exists (fs w (LlmRepl.exe_path e)) = true ->
  leaves_alone eff [LlmRepl.config_path e] ->
  spawn e cmd = Interrupted ->
  exists w',
    LlmRepl._test_config_file e eff w = (Raise KeyboardInterrupt, w') /\
    fs w' (LlmRepl.config_path e) = File.
Proof.
  cbv zeta. intros Hdir Hexe Halone Hrun.
  assert (Hcfg : forall c f, eff c f (LlmRepl.config_path e) = f (LlmRepl.config_path e))
    by (intros c f; apply Halone; now left).
  config_cases e w.
  destruct (fs w (LlmRepl.config_path e)) eqn:Hstate; try discriminate; exec.
  all: rewrite ?fs_set_exe, Hexe, Hrun; exec; settled.
  all: eexists; split; [reflexivity|]; cbn; now rewrite Hcfg, fs_set_same.
Qed.

Lemma config_test_interrupted_witness :
  exists w',
    LlmRepl._test_config_file (sample_env interrupted) no_effects
      (initial_world built_project) = (Raise KeyboardInterrupt, w') /\
    fs w' (LlmRepl.config_path (sample_env interrupted)) = File.
Proof.
  apply (config_test_interrupted (sample_env interrupted) no_effects
           (initial_world built_project)).
  - reflexivity.
  - reflexivity.
  - intros cmd f p _. reflexivity.
  - reflexivity.
Defined.

(** ** llm-repl.py: [TestCommand.execute] *)

Lemma bind_ok {A B : Type} (c : M A) (k : A -> M B) (w w' : world) (a : A) :
  c w = (Ok a, w') -> bind c k w = k a w'.
Proof. unfold bind. now intros ->. Qed.

Ltac flag_test_cases e w :=
  unfold settle, LlmRepl._test_version_check, LlmRepl._test_help_output,
    LlmRepl._test_invalid_args, LlmRepl.run_command, LlmRepl.Logger.error,
    bind, ret, raise, try_except;
  exec;
  destruct (node_exists (fs w (LlmRepl.exe_path e))) eqn:Hexe; exec;
  [ match goal with
    | |- context [spawn e ?cmd] =>
        destruct (spawn e cmd) as [rc out err|msg|] eqn:Hout; try congruence; exec;
        [ destruct (Z.eqb_spec rc 0) as [Hrc|Hrc]; exec;
          repeat match goal with
                 | |- context [if ?b then _ else _] => destruct b eqn:?; exec
                 end
        | ]
    end
  | ];
  settled;
  do 2 eexists; (split; [reflexivity|]); cbn;
  rewrite ?spawns_app, ?app_nil_r; cbn;
  repeat split; try reflexivity; auto.

(** The three tests that start the executable with one flag, on any world,
    with an executable that leaves [paths] alone and is not interrupted. *)
Lemma version_test_run (e : env) (eff : effects) (paths : list string) (w : world) :
  let cmd := [LlmRepl.exe_path e; "--version"] in
  leaves_alone eff paths ->
  spawn e cmd <> Interrupted ->
  exists res w',
    settle eff (LlmRepl._test_version_check e) w = (Ok res, w') /\
    LlmRepl.passed res =
      node_exists (fs w (LlmRepl.exe_path e)) &&
      match spawn e cmd with
      | Exited rc out _ => (rc =? 0) && contains "LLM REPL v" out
      | _ => false
      end /\
    (forall p, In p paths -> fs w' p = fs w p) /\
    spawns (trace w') =
      (spawns (trace w) ++
       if node_exists (fs w (LlmRepl.exe_path e)) then [(cmd, spawn e cmd)] else [])%list.
Proof.
  cbv zeta. intros Halone Hrun. flag_test_cases e w.
Qed.

Lemma help_test_run (e : env) (eff : effects) (paths : list string) (w : world) :
  let cmd := [LlmRepl.exe_path e; "--help"] in
  leaves_alone eff paths ->
  spawn e cmd <> Interrupted ->
  exists res w',
    settle eff (LlmRepl._test_help_output e) w = (Ok res, w') /\
    LlmRepl.passed res =
      node_exists (fs w (LlmRepl.exe_path e)) &&
      match spawn e cmd with
      | Exited rc out _ => (rc =? 0) && contains "Interactive AI Chat Terminal" out
      | _ => false
      end /\
    (forall p, In p paths -> fs w' p = fs w p) /\
    spawns (trace w') =
      (spawns (trace w) ++
       if node_exists (fs w (LlmRepl.exe_path e)) then [(cmd, spawn e cmd)] else [])%list.
Proof. cbv zeta. intros Halone Hrun. flag_test_cases e w. Qed.

Lemma invalid_args_test_run (e : env) (eff : effects) (paths : list string) (w : world) :
  let cmd := [LlmRepl.exe_path e; "--invalid-flag"] in
  leaves_alone eff paths ->
  spawn e cmd <> Interrupted ->
  exists res w',
    settle eff (LlmRepl._test_invalid_args e) w = (Ok res, w') /\
    LlmRepl.passed res = node_exists (fs w (LlmRepl.exe_path e)) /\
    (forall p, In p paths -> fs w' p = fs w p) /\
    spawns (trace w') =
      (spawns (trace w) ++
       if node_exists (fs w (LlmRepl.exe_path e)) then [(cmd, spawn e cmd)] else [])%list.
Proof. cbv zeta. intros Halone Hrun. flag_test_cases e w. Qed.

Lemma file_structure_run (e : env) (py : LlmRepl.formats) (w : world) :
  exists res,
    LlmRepl._test_file_structure e py w =
      (Ok res, {| fs := fs w; ticks := S (S (ticks w)); trace := trace w |}) /\
    LlmRepl.passed res =
      forallb (fun f => node_exists (fs w f)) (LlmRepl.required_files e).
Proof.
  unfold LlmRepl._test_file_structure, LlmRepl.missing_files, LlmRepl.required_files,
    bind, ret.
  exec.
  destruct (node_exists (fs w (LlmRepl.exe_path e)));
    destruct (node_exists (fs w (path_join (path_join (project_root e) "src") "main.cpp")));
    destruct (node_exists (fs w (path_join (project_root e) "CMakeLists.txt")));
    exec; eexists; split; reflexivity.
Qed.

Lemma report_run (py : LlmRepl.formats) (res : LlmRepl.TestResult) (w : world) :
  exists lines,
    LlmRepl.TestCommand.report py res w =
      (Ok tt, {| fs := fs w; ticks := ticks w; trace := trace w ++ map Out lines |}).
Proof.
  unfold LlmRepl.TestCommand.report, LlmRepl.Logger.success, LlmRepl.Logger.error,
    LlmRepl.Logger.info, bind, ret.
  destruct (LlmRepl.passed res); exec.
  - now eexists [_].
  - destruct (String.eqb (LlmRepl.error res) ""); exec.
    + now eexists [_].
    + rewrite <- app_assoc. now eexists [_; _].
Qed.

Lemma run_tests_cons (py : LlmRepl.formats) (test : M LlmRepl.TestResult)
    (rest : list (M LlmRepl.TestResult)) (w w1 w1' w2 : world)
    (res : LlmRepl.TestResult) (results : list LlmRepl.TestResult) :
  test w = (Ok res, w1) ->
  LlmRepl.TestCommand.report py res w1 = (Ok tt, w1') ->
  LlmRepl.TestCommand.run_tests py rest w1' = (Ok results, w2) ->
  LlmRepl.TestCommand.run_tests py (test :: rest) w = (Ok (res :: results), w2).
Proof.
  intros Htest Hreport Hrest. cbn [LlmRepl.TestCommand.run_tests].
  rewrite (bind_ok _ _ _ _ _ Htest), (bind_ok _ _ _ _ _ Hreport),
    (bind_ok _ _ _ _ _ Hrest).
  reflexivity.
Qed.

(** The five tests in a row, with no directory in the way of
    [test_config.yaml] and an executable that leaves that file and the
    required files alone and is never interrupted. *)
Lemma run_tests_results (e : env) (py : LlmRepl.formats) (eff : effects) (w : world) :
  let exe := LlmRepl.exe_path e in
  let cfg := LlmRepl.config_path e in
  is_dir (fs w cfg) = false ->
  leaves_alone eff (cfg :: LlmRepl.required_files e) ->
  (forall cmd, spawn e cmd <> Interrupted) ->
  exists r1 r2 r3 r4 r5 w',
    LlmRepl.TestCommand.run_tests py (LlmRepl.TestCommand.tests e py eff) w =
      (Ok [r1; r2; r3; r4; r5], w') /\
    LlmRepl.passed r1 =
      node_exists (fs w exe) &&
      match spawn e [exe; "--version"] with
      | Exited rc out _ => (rc =? 0) && contains "LLM REPL v" out
      | _ => false
      end /\
    LlmRepl.passed r2 =
      node_exists (fs w exe) &&
      match spawn e [exe; "--help"] with
      | Exited rc out _ => (rc =? 0) && contains "Interactive AI Chat Terminal" out
      | _ => false
      end /\
    LlmRepl.passed r3 =
      node_exists (fs w exe) &&
      match spawn e [exe; "--config"; cfg; "--help"] with
      | Exited rc _ _ => rc =? 0
      | _ => false
      end /\
    LlmRepl.passed r4 = node_exists (fs w exe) /\
    LlmRepl.passed r5 =
      forallb (fun f => node_exists (fs w f)) (LlmRepl.required_files e) /\
    spawns (trace w') =
      (spawns (trace w) ++
       if node_exists (fs w exe) then
         [ ([exe; "--version"], spawn e [exe; "--version"]);
           ([exe; "--help"], spawn e [exe; "--help"]);
           ([exe; "--config"; cfg; "--help"], spawn e [exe; "--config"; cfg; "--help"]);
           ([exe; "--invalid-flag"], spawn e [exe; "--invalid-flag"]) ]
       else [])%list /\
    fs w' cfg = Absent.
Proof.
  cbv zeta. intros Hdir Halone Hrun.
  assert (Hexe : In (LlmRepl.exe_path e) (LlmRepl.config_path e :: LlmRepl.required_files e))
    by (right; left; reflexivity).
  assert (Hcfg : In (LlmRepl.config_path e)
                   (LlmRepl.config_path e :: LlmRepl.required_files e))
    by (left; reflexivity).
  destruct (version_test_run e eff _ w Halone (Hrun _)) as (r1 & w1 & E1 & P1 & F1 & S1).
  destruct (report_run py r1 w1) as (l1 & R1).
  destruct (help_test_run e eff _
              {| fs := fs w1; ticks := ticks w1; trace := trace w1 ++ map Out l1 |}
              Halone (Hrun _)) as (r2 & w2 & E2 & P2 & F2 & S2).
  destruct (report_run py r2 w2) as (l2 & R2).
  destruct (config_test_run e eff (LlmRepl.required_files e)
              {| fs := fs w2; ticks := ticks w2; trace := trace w2 ++ map Out l2 |})
    as (r3 & w3 & E3 & P3 & A3 & F3 & S3);
    [ cbn; rewrite (F2 _ Hcfg); cbn; now rewrite (F1 _ Hcfg) | exact Halone | apply Hrun | ].
  destruct (report_run py r3 w3) as (l3 & R3).
  destruct (invalid_args_test_run e eff _
              {| fs := fs w3; ticks := ticks w3; trace := trace w3 ++ map Out l3 |}
              Halone (Hrun _)) as (r4 & w4 & E4 & P4 & F4 & S4).
  destruct (report_run py r4 w4) as (l4 & R4).
  destruct (file_structure_run e py
              {| fs := fs w4; ticks := ticks w4; trace := trace w4 ++ map Out l4 |})
    as (r5 & E5 & P5).
  destruct (report_run py r5 {| fs := fs w4; ticks := S (S (ticks w4));
                                trace := trace w4 ++ map Out l4 |}) as (l5 & R5).
  exists r1, r2, r3, r4, r5. eexists. split.
  { eapply run_tests_cons; [exact E1 | exact R1 |].
    eapply run_tests_cons; [exact E2 | exact R2 |].
    eapply run_tests_cons; [exact E3 | exact R3 |].
    eapply run_tests_cons; [exact E4 | exact R4 |].
    eapply run_tests_cons; [exact E5 | exact R5 |].
    reflexivity. }
  assert (Hreq : forall p, In p (LlmRepl.required_files e) ->
                 In p (LlmRepl.config_path e :: LlmRepl.required_files e))
    by (intros p Hp; now right).
  assert (X1 : forall p, In p (LlmRepl.required_files e) -> fs w1 p = fs w p)
    by (intros p Hp; now apply F1, Hreq).
  assert (X2 : forall p, In p (LlmRepl.required_files e) -> fs w2 p = fs w p)
    by (intros p Hp; rewrite (F2 p (Hreq p Hp)); cbn; now apply X1).
  assert (X3 : forall p, In p (LlmRepl.required_files e) -> fs w3 p = fs w p)
    by (intros p Hp; rewrite (F3 p Hp (config_path_not_required e p Hp)); cbn;
        now apply X2).
  assert (X4 : forall p, In p (LlmRepl.required_files e) -> fs w4 p = fs w p)
    by (intros p Hp; rewrite (F4 p (Hreq p Hp)); cbn; now apply X3).
  assert (Hin : In (LlmRepl.exe_path e) (LlmRepl.required_files e))
    by (left; reflexivity).
  cbn [fs trace] in *.
  rewrite !spawns_app, !spawns_outs, !app_nil_r.
  rewrite S4, spawns_app, spawns_outs, app_nil_r, S3, spawns_app, spawns_outs,
    app_nil_r, S2, spawns_app, spawns_outs, app_nil_r, S1.
  rewrite (X1 _ Hin) in *. rewrite (X2 _ Hin) in *. rewrite (X3 _ Hin) in *.
  rewrite P5.
  repeat split; try assumption.
  - unfold LlmRepl.required_files in *. cbn [forallb].
    rewrite !X4 by (cbn [In]; auto). reflexivity.
  - destruct (node_exists (fs w (LlmRepl.exe_path e)));
      rewrite <- ?app_assoc, ?app_nil_r; reflexivity.
  - rewrite (F4 _ Hcfg). exact A3.
Qed.

Lemma all_passed_count (r1 r2 r3 r4 r5 : LlmRepl.TestResult) :
  Nat.eqb (List.length (filter LlmRepl.passed [r1; r2; r3; r4; r5]))
          (List.length [r1; r2; r3; r4; r5]) =
  LlmRepl.passed r1 && LlmRepl.passed r2 && LlmRepl.passed r3 && LlmRepl.passed r4 &&
  LlmRepl.passed r5.
Proof.
  cbn [filter].
  destruct (LlmRepl.passed r1), (LlmRepl.passed r2), (LlmRepl.passed r3),
    (LlmRepl.passed r4), (LlmRepl.passed r5); reflexivity.
Qed.

Lemma verdict_bool (x m k v h c : bool) :
  x && v && (x && h) && (x && c) && x && (x && (m && (k && true))) =
  x && (m && (k && true)) && v && h && c.
Proof. destruct x, m, k, v, h, c; reflexivity. Qed.

(** X26.  What the test suite of [llm-repl.py test] decides, with no
    directory in the way of [test_config.yaml] and an executable that
    leaves that file and the three required files alone and is never
    interrupted.  [TestCommand.execute] returns true exactly when the
    executable, [src/main.cpp] and [CMakeLists.txt] exist, [--version]
    exits with 0 and prints [LLM REPL v], [--help] exits with 0 and prints
    [Interactive AI Chat Terminal], and [--config test_config.yaml --help]
    exits with 0.  How the executable answers [--invalid-flag] changes
    nothing.  The four command lines are started in this order when the
    executable exists, none otherwise, and no [test_config.yaml] is left. *)
Theorem test_suite_verdict (e : env) (py : LlmRepl.formats) (eff : effects)
    (fs0 : file_system) :
  let exe := LlmRepl.exe_path e in
  let cfg := LlmRepl.config_path e in
  is_dir (fs0 cfg) = false ->
  leaves_alone eff (cfg :: LlmRepl.required_files e) ->
  (forall cmd, spawn e cmd <> Interrupted) ->
  exists w',
    LlmRepl.TestCommand.execute e py eff (initial_world fs0) =
      (Ok (forallb (fun f => node_exists (fs0 f)) (LlmRepl.required_files e) &&
           match spawn e [exe; "--version"] with
           | Exited rc out _ => (rc =? 0) && contains "LLM REPL v" out
           | _ => false
           end &&
           match spawn e [exe; "--help"] with
           | Exited rc out _ => (rc =? 0) && contains "Interactive AI Chat Terminal" out
           | _ => false
           end &&
           match spawn e [exe; "--config"; cfg; "--help"] with
           | Exited rc _ _ => rc =? 0
           | _ => false
           end),
       w') /\
    spawns (trace w') =
      (if node_exists (fs0 exe) then
         [ ([exe; "--version"], spawn e [exe; "--version"]);
           ([exe; "--help"], spawn e [exe; "--help"]);
           ([exe; "--config"; cfg; "--help"], spawn e [exe; "--config"; cfg; "--help"]);
           ([exe; "--invalid-flag"], spawn e [exe; "--invalid-flag"]) ]
       else []) /\
    fs w' cfg = Absent.
Proof.
  cbv zeta. intros Hdir Halone Hrun.
  unfold LlmRepl.TestCommand.execute.
  erewrite bind_ok by reflexivity.
  match goal with
  | |- exists _, bind _ _ ?w0 = _ /\ _ =>
      destruct (run_tests_results e py eff w0 Hdir Halone Hrun)
        as (r1 & r2 & r3 & r4 & r5 & w' & Heq & P1 & P2 & P3 & P4 & P5 & Hspawns & Hcfg)
  end.
  rewrite (bind_ok _ _ _ _ _ Heq).
  erewrite bind_ok by reflexivity.
  rewrite all_passed_count.
  cbn [fs trace app spawns initial_world] in *.
  rewrite P1, P2, P3, P4, P5.
  unfold LlmRepl.required_files. cbn [forallb]. rewrite verdict_bool.
  match goal with
  | |- context [if ?b then _ else _] => destruct b
  end.
  all: eexists; (split; [reflexivity|]); cbn; rewrite !spawns_app; cbn;
    rewrite !app_nil_r; now split.
Qed.

Lemma test_suite_verdict_witness :
  exists w',
    LlmRepl.TestCommand.execute (sample_env well_behaved) sample_formats no_effects
      (initial_world complete_project) = (Ok true, w').
Proof.
  destruct (test_suite_verdict (sample_env well_behaved) sample_formats no_effects
              complete_project) as (w' & Heq & _).
  - reflexivity.
  - intros cmd f p _. reflexivity.
  - intros cmd. unfold sample_env, well_behaved. cbn.
    destruct (mem "--help" cmd); [discriminate|].
    destruct (mem "--version" cmd); discriminate.
  - exists w'. exact Heq.
Defined.

Lemma missing_nonempty (s : string) : String.eqb ("Missing files: " ++ s) "" = false.
Proof. reflexivity. Qed.

(** X27.  Without the executable, and with no directory in the way of
    [test_config.yaml], [TestCommand.execute] starts no subprocess and
    returns false: four tests fail with [Executable not found], the File
    Structure test names the files that are missing, the executable first,
    and the summary counts 0 of 5. *)
Theorem tests_without_executable (e : env) (py : LlmRepl.formats) (eff : effects)
    (fs0 : file_system) :
  node_exists (fs0 (LlmRepl.exe_path e)) = false ->
  is_dir (fs0 (LlmRepl.config_path e)) = false ->
  let r := LlmRepl.TestCommand.execute e py eff (initial_world fs0) in
  let failed (name : string) (d : float) :=
    (LlmRepl.Colors.RED ++ "[ERROR] " ++
       (name ++ " - FAILED (" ++ LlmRepl.fmt_2f py d ++ "s)") ++
       LlmRepl.Colors.END)%string in
  let reason (text : string) :=
    (LlmRepl.Colors.CYAN ++ "[INFO] " ++ ("  Error: " ++ text) ++
       LlmRepl.Colors.END)%string in
  fst r = Ok false /\
  spawns (trace (snd r)) = [] /\
  printed (trace (snd r)) =
    [ (nl ++ LlmRepl.Colors.MAGENTA ++ LlmRepl.Colors.BOLD ++ ">>> RUNNING TESTS <<<" ++
         LlmRepl.Colors.END)%string;
      failed "Version Check" fzero; reason "Executable not found";
      failed "Help Output" fzero; reason "Executable not found";
      failed "Config File Handling" fzero; reason "Executable not found";
      failed "Invalid Arguments" fzero; reason "Executable not found";
      failed "File Structure" (fsub (clock e 5%nat) (clock e 4%nat));
      reason ("Missing files: " ++
              LlmRepl.repr_list py
                (filter (fun f => negb (node_exists (fs0 f))) (LlmRepl.required_files e)));
      (nl ++ repeat_str "=" 60)%string;
      (LlmRepl.Colors.RED ++ "[ERROR] SOME TESTS FAILED (0/5)" ++
         LlmRepl.Colors.END)%string ].
Proof.
  cbv zeta. intros Hexe Hdir.
  assert (Hmain : String.eqb (path_join (path_join (project_root e) "src") "main.cpp")
                    (LlmRepl.config_path e) = false)
    by (apply config_path_not_required; right; left; reflexivity).
  assert (Hcmake : String.eqb (path_join (project_root e) "CMakeLists.txt")
                     (LlmRepl.config_path e) = false)
    by (apply config_path_not_required; right; right; left; reflexivity).
  unfold LlmRepl.TestCommand.execute, LlmRepl.TestCommand.tests,
    LlmRepl.TestCommand.run_tests, LlmRepl.TestCommand.report,
    LlmRepl._test_file_structure, LlmRepl.missing_files, LlmRepl.required_files,
    LlmRepl._test_config_file, settle, LlmRepl._test_version_check,
    LlmRepl._test_help_output, LlmRepl._test_invalid_args,
    LlmRepl.Logger.header, LlmRepl.Logger.error, LlmRepl.Logger.info,
    LlmRepl.Logger.success, write_file, unlink, bind, ret, raise, try_except,
    initial_world.
  exec. rewrite Hexe. exec.
  destruct (fs0 (LlmRepl.config_path e)) eqn:Hcfg; try discriminate; exec.
  all: do 6 (rewrite ?Hcfg, ?fs_set_exe, ?Hexe, ?fs_set_same; exec).
  all: rewrite !(fs_set_other _ _ _ _ Hmain), !(fs_set_other _ _ _ _ Hcmake).
  all: rewrite !missing_nonempty; exec.
  all: destruct (node_exists (fs0 (path_join (path_join (project_root e) "src")
                                     "main.cpp")));
    destruct (node_exists (fs0 (path_join (project_root e) "CMakeLists.txt")));
    exec; repeat split; reflexivity.
Qed.

Lemma tests_without_executable_witness :
  fst (LlmRepl.TestCommand.execute (sample_env well_behaved) sample_formats no_effects
         (initial_world fresh_project)) = Ok false.
Proof.
  apply (tests_without_executable (sample_env well_behaved) sample_formats no_effects
           fresh_project); reflexivity.
Defined.

(** X20.  Each of the Version Check, Help Output and Invalid Arguments
    tests, as [TestCommand.execute] runs it.  Without the executable it
    starts no subprocess and the file system stays as it was.  With the
    executable it starts exactly one subprocess, the executable with the
    flag of the test, in the project root, and the file system afterwards is
    the one that process left: the test itself writes and removes
    nothing. *)
Theorem tests_start_one_subprocess (e : env) (eff : effects) (fs0 : file_system)
    (test : M LlmRepl.TestResult) (flag : string) :
  In (test, flag) [ (LlmRepl._test_version_check e, "--version");
                    (LlmRepl._test_help_output e, "--help");
                    (LlmRepl._test_invalid_args e, "--invalid-flag") ] ->
  let cmd := [LlmRepl.exe_path e; flag] in
  let w := snd (settle eff test (initial_world fs0)) in
  (node_exists (fs0 (LlmRepl.exe_path e)) = false ->
   spawns (trace w) = [] /\ fs w = fs0) /\
  (node_exists (fs0 (LlmRepl.exe_path e)) = true ->
   spawns (trace w) = [(cmd, spawn e cmd)] /\
   cwds (trace w) = [Some (project_root e)] /\
   fs w = match spawn e cmd with
          | Failed _ => fs0
          | _ => eff cmd fs0
          end).
Proof.
  intros Hin. cbv zeta.
  cbn in Hin. destruct Hin as [Hin|[Hin|[Hin|[]]]]; injection Hin as <- <-.
  all: unfold settle; test_cases e fs0.
  all: split; intros; try discriminate; repeat split.
Qed.

Lemma tests_start_one_subprocess_witness :
  spawns (trace (snd (settle make_builds
                        (LlmRepl._test_help_output (sample_env well_behaved))
                        (initial_world built_project)))) =
    [(["/proj/build/llm-repl.exe"; "--help"],
      Exited 0 "LLM REPL - Interactive AI Chat Terminal" "")].
Proof.
  destruct (tests_start_one_subprocess (sample_env well_behaved) make_builds
              built_project (LlmRepl._test_help_output (sample_env well_behaved))
              "--help") as (_ & H).
  - right. left. reflexivity.
  - destruct H as (H & _); [reflexivity | exact H].
Defined.

(** ** llm-repl.py: [BuildCommand.execute] *)

Ltac build_command_cases e config fs0 :=
  unfold LlmRepl.BuildCommand.execute, LlmRepl.BuildCommand.mkdir_parents, settle,
    LlmRepl.run_command, LlmRepl.Logger.header, LlmRepl.Logger.error,
    LlmRepl.Logger.info, LlmRepl.Logger.success, bind, ret, raise, try_except,
    initial_world;
  generalize (LlmRepl.BuildCommand.cmake_args config) as cmake;
  generalize (LlmRepl.BuildCommand.make_args config) as make;
  intros make cmake;
  exec;
  destruct (fs0 (LlmRepl.build_dir e)) as [| |entries] eqn:Hdir; exec;
  rewrite ?Hdir; exec;
  destruct (verbose config); exec;
  (destruct (spawn e cmake) as [rc1 out1 err1|msg1|] eqn:Hcmake; exec;
   [ destruct (Z.eqb_spec rc1 0) as [Hrc1|Hrc1]; exec;
     [ destruct (spawn e make) as [rc2 out2 err2|msg2|] eqn:Hmake; exec;
       [ destruct (Z.eqb_spec rc2 0) as [Hrc2|Hrc2]; exec;
         repeat match goal with
                | |- context [if ?b then _ else _] => destruct b eqn:?; exec
                end
       | | ]
     | repeat match goal with
              | |- context [if ?b then _ else _] => destruct b eqn:?; exec
              end ]
   | | ]).

(** X28.  [BuildCommand.execute] returns true exactly when [cmake] exits
    with 0, [make] exits with 0, and the executable exists after [make] has
    run, in the build directory that was created when it was missing. *)
Theorem build_command_verdict (e : env) (py : LlmRepl.formats) (eff : effects)
    (config : BuildConfig) (fs0 : file_system) :
  let cmake := LlmRepl.BuildCommand.cmake_args config in
  let make := LlmRepl.BuildCommand.make_args config in
  let prepared :=
    if node_exists (fs0 (LlmRepl.build_dir e)) then fs0
    else fs_set (LlmRepl.build_dir e) (Dir []) fs0 in
  fst (LlmRepl.BuildCommand.execute e py eff config (initial_world fs0)) = Ok true <->
  succeeded (spawn e cmake) = true /\
  succeeded (spawn e make) = true /\
  node_exists (eff make (eff cmake prepared) (LlmRepl.exe_path e)) = true.
Proof.
  cbv zeta. build_command_cases e config fs0.
  all: split; [intros H; try discriminate H; repeat split; reflexivity
              | intros (H1 & H2 & H3); try discriminate; reflexivity].
Qed.

Lemma build_command_verdict_witness :
  fst (LlmRepl.BuildCommand.execute (sample_env (exits_with 0 "")) sample_formats
         make_builds (mkBuildConfig "Release" "clang++" "Unix Makefiles" 4 false)
         (initial_world fresh_project)) = Ok true.
Proof.
  apply (build_command_verdict (sample_env (exits_with 0 "")) sample_formats make_builds
           (mkBuildConfig "Release" "clang++" "Unix Makefiles" 4 false) fresh_project).
  repeat split; reflexivity.
Defined.

(** X29.  How a build fails.  When [cmake] exits with another code than 0,
    [make] is not started and [BuildCommand.execute] prints [Build failed]
    last and returns false; the same holds for [make] after a [cmake] that
    exited with 0.  A tool that cannot be started is not a failed build:
    the exception of [subprocess.run] leaves [execute], since only
    [CalledProcessError] is handled. *)
Theorem build_command_failures (e : env) (py : LlmRepl.formats) (eff : effects)
    (config : BuildConfig) (fs0 : file_system) :
  let cmake := LlmRepl.BuildCommand.cmake_args config in
  let make := LlmRepl.BuildCommand.make_args config in
  let r := LlmRepl.BuildCommand.execute e py eff config (initial_world fs0) in
  let failed :=
    (LlmRepl.Colors.RED ++ "[ERROR] Build failed" ++ LlmRepl.Colors.END)%string in
  (forall rc out err,
     spawn e cmake = Exited rc out err -> rc <> 0 ->
     fst r = Ok false /\
     spawns (trace (snd r)) = [(cmake, Exited rc out err)] /\
     last (printed (trace (snd r))) "" = failed) /\
  (forall rc out err,
     succeeded (spawn e cmake) = true ->
     spawn e make = Exited rc out err -> rc <> 0 ->
     fst r = Ok false /\
     spawns (trace (snd r)) = [(cmake, spawn e cmake); (make, Exited rc out err)] /\
     last (printed (trace (snd r))) "" = failed) /\
  (forall msg,
     spawn e cmake = Failed msg ->
     fst r = Raise (Exception msg) /\
     spawns (trace (snd r)) = [(cmake, Failed msg)]) /\
  (forall msg,
     succeeded (spawn e cmake) = true ->
     spawn e make = Failed msg ->
     fst r = Raise (Exception msg) /\
     spawns (trace (snd r)) = [(cmake, spawn e cmake); (make, Failed msg)]).
Proof.
  cbv zeta. build_command_cases e config fs0.
  all: repeat split; intros; try discriminate; try congruence; same_list; subst;
    try reflexivity.
Qed.

Lemma build_command_failures_witness :
  fst (LlmRepl.BuildCommand.execute (sample_env (missing_tool "make")) sample_formats
         no_effects (mkBuildConfig "Release" "clang++" "Unix Makefiles" 4 false)
         (initial_world fresh_project)) = Raise (Exception "FileNotFoundError").
Proof.
  destruct (build_command_failures (sample_env (missing_tool "make")) sample_formats
              no_effects (mkBuildConfig "Release" "clang++" "Unix Makefiles" 4 false)
              fresh_project) as (_ & _ & _ & H).
  apply (H "FileNotFoundError"); reflexivity.
Defined.

(** X30.  [BuildCommand.execute] creates the build directory exactly when
    nothing exists at its path, and starts every subprocess in it.  What
    exists there is not checked to be a directory: a regular file at the
    build path is left as it is and handed to [cmake] as its working
    directory. *)
Theorem build_command_directory (e : env) (py : LlmRepl.formats) (eff : effects)
    (config : BuildConfig) (fs0 : file_system) :
  let r := LlmRepl.BuildCommand.execute e py eff config (initial_world fs0) in
  created (trace (snd r)) =
    match fs0 (LlmRepl.build_dir e) with
    | Absent => [LlmRepl.build_dir e]
    | _ => []
    end /\
  first_cwd (trace (snd r)) =
    Some (LlmRepl.build_dir e,
          match fs0 (LlmRepl.build_dir e) with
          | Absent => Dir []
          | there => there
          end) /\
  Forall (fun cwd => cwd = Some (LlmRepl.build_dir e)) (cwds (trace (snd r))).
Proof.
  cbv zeta. build_command_cases e config fs0.
  all: rewrite ?Hdir; repeat split; repeat constructor.
Qed.
